(** * sfnt: decoding of the OpenType 'OS/2' and 'fvar' tables

    A shallow embedding of [sfnt/table_os2.go] and [sfnt/table_fvar.go],
    together with the part of Go's [bytes], [io] and [encoding/binary]
    packages the two decoders go through, and the properties of the decoders
    and of the OS/2 accessors.

    Conventions.  Every Go integer is a [Z]; the conversions that wrap are
    written out.  A byte slice is a [list byte].  A Go function returning
    [(T, error)] returns a [result T].  A Go function that may panic returns
    an [option], [None] being the panic. *)

From Stdlib Require Import ZArith List String Ascii Lia Bool.
From Stdlib Require Import Strings.Byte.
From Stdlib Require Import Numbers.DecimalString Numbers.DecimalPos Numbers.DecimalZ.
Import ListNotations.
Open Scope string_scope.
Open Scope list_scope.
Open Scope Z_scope.

(** ** Errors and results *)

(** The errors [binary.Read] can return when its reader is a [bytes.Buffer]:
    the two sentinel values of package [io], and the error built by
    [errors.New("binary.Read: invalid type " + ...)]. *)
Inductive error : Type :=
| EOF
| ErrUnexpectedEOF
| ErrInvalidType (type_name : string).

Inductive result (A : Type) : Type :=
| Ok (a : A)
| Err (e : error).
Arguments Ok {A} a.
Arguments Err {A} e.

(** The errors that report a buffer shorter than a fixed read requires. *)
Definition truncated (e : error) : bool :=
  match e with
  | EOF | ErrUnexpectedEOF => true
  | ErrInvalidType _ => false
  end.

(** ** bytes.Buffer and io.ReadFull *)

(** A [bytes.Buffer] used only for reading: its state is the unread part of
    the slice it was created from. *)
Definition Buffer : Type := list byte.

Definition NewBuffer (buf : list byte) : Buffer := buf.

(** A computation that reads from the buffer.  The buffer left behind is
    returned also when the computation fails. *)
Definition Reader (A : Type) : Type := Buffer -> result A * Buffer.

Definition ret {A : Type} (a : A) : Reader A := fun r => (Ok a, r).

Definition fail {A : Type} (e : error) : Reader A := fun r => (Err e, r).

Definition bind {A B : Type} (c : Reader A) (k : A -> Reader B) : Reader B :=
  fun r =>
    match c r with
    | (Ok a, r') => k a r'
    | (Err e, r') => (Err e, r')
    end.

Notation "x <- c ;; k" := (bind c (fun x => k))
  (at level 61, c at next level, right associativity).

Definition run {A : Type} (c : Reader A) (r : Buffer) : result A := fst (c r).

(** [io.ReadFull(r, p)] with [len(p) = n].  [ReadAtLeast] calls
    [Buffer.Read] until [n] bytes are copied or an error comes back: an empty
    buffer answers [io.EOF] at once; a buffer with fewer than [n] bytes is
    drained by the first call and answers [io.EOF] to the second, which
    [ReadAtLeast] turns into [io.ErrUnexpectedEOF].  With [n = 0] the loop
    does not run. *)
Definition ReadFull (n : nat) : Reader (list byte) :=
  fun r =>
    match n with
    | O => (Ok [], r)
    | S _ =>
        match r with
        | [] => (Err EOF, [])
        | _ :: _ =>
            if (List.length r <? n)%nat then (Err ErrUnexpectedEOF, [])
            else (Ok (firstn n r), skipn n r)
        end
    end.

(** ** encoding/binary: sizes *)

(** The [reflect.Kind]s that occur in the two tables. *)
#[local] Set Warnings "-register-all".
Inductive kind : Type :=
| Uint8
| Int16
| Uint16
| Uint32
| Array (len : nat) (elem : kind)
| Struct (fields : list kind)
| Slice (elem : kind)
| Pointer (elem : kind).

(** [binary.sizeof]: the encoded size of a fixed-size type; [None] is the
    [-1] it returns for every other type. *)
Fixpoint sizeof (t : kind) : option nat :=
  match t with
  | Uint8 => Some 1%nat
  | Int16 | Uint16 => Some 2%nat
  | Uint32 => Some 4%nat
  | Array len elem =>
      match sizeof elem with
      | Some s => Some (s * len)%nat
      | None => None
      end
  | Struct fields =>
      (fix sum (fs : list kind) : option nat :=
         match fs with
         | [] => Some 0%nat
         | f :: fs' =>
             match sizeof f with
             | None => None
             | Some s =>
                 match sum fs' with
                 | None => None
                 | Some rest => Some (s + rest)%nat
                 end
             end
         end) fields
  | Slice _ | Pointer _ => None
  end.

(** ** encoding/binary: the big-endian decoder *)

(** [binary.decoder]: a cursor over the bytes [ReadFull] delivered.  A
    decoding step returns the value and the bytes after it.  The buffer holds
    [sizeof] bytes, so no step runs short; a missing byte would read as 0. *)
Definition Decoder (A : Type) : Type := list byte -> A * list byte.

Definition dret {A : Type} (a : A) : Decoder A := fun bs => (a, bs).

Definition dbind {A B : Type} (d : Decoder A) (k : A -> Decoder B) : Decoder B :=
  fun bs => let (a, bs') := d bs in k a bs'.

Notation "x <~ d ;; k" := (dbind d (fun x => k))
  (at level 61, d at next level, right associativity).

(** [n] bytes, most significant first, above the bits already in [acc]. *)
Fixpoint bigEndian (n : nat) (acc : Z) : Decoder Z :=
  fun bs =>
    match n with
    | O => (acc, bs)
    | S n' =>
        match bs with
        | b :: bs' => bigEndian n' (Z.lor (Z.shiftl acc 8) (Z.of_N (Byte.to_N b))) bs'
        | [] => bigEndian n' (Z.shiftl acc 8) []
        end
    end.

Definition uint8 : Decoder Z := bigEndian 1 0.
Definition uint16 : Decoder Z := bigEndian 2 0.
Definition uint32 : Decoder Z := bigEndian 4 0.

(** The conversion [int16(x)] of an unsigned 16-bit value. *)
Definition to_int16 (x : Z) : Z := if x <? 2 ^ 15 then x else x - 2 ^ 16.

Definition int16 : Decoder Z := x <~ uint16 ;; dret (to_int16 x).

(** What [binary.Read] needs to know of the type of its [data] argument:
    the name it prints, its kind, and how [decoder.value] fills it in. *)
Record binaryType (A : Type) : Type := {
  type_name : string;
  type_kind : kind;
  type_value : Decoder A
}.
Arguments type_name {A} _.
Arguments type_kind {A} _.
Arguments type_value {A} _.

(** [binary.Read(r, binary.BigEndian, &data)] for [data] of a struct type:
    the reflect path.  A type that has no fixed size is refused before a
    byte is read. *)
Definition binary_Read {A : Type} (ty : binaryType A) : Reader A :=
  match sizeof (type_kind ty) with
  | None => fail (ErrInvalidType (type_name ty))
  | Some size =>
      bs <- ReadFull size ;;
      ret (fst (type_value ty bs))
  end.

(** ** Types declared elsewhere in the package *)

(** Modelled from the spec: the declarations of [Tag], [NameID], [fixed] and
    [baseTable] are not in the two files.  A tag is a 4-byte identifier; a
    name-table reference is 16 bits wide; a fixed-point value is a signed
    16.16 number, the high 16 bits the integer part ([Major]) and the low 16
    bits the fraction ([Minor]); a table records the tag it was parsed as. *)
Definition Tag : Type := Z.
Definition Tag_kind : kind := Struct [Uint32].
Definition Tag_value : Decoder Tag := uint32.

Definition NameID : Type := Z.
Definition NameID_kind : kind := Uint16.
Definition NameID_value : Decoder NameID := uint16.

Record fixed : Type := {
  Major : Z;
  Minor : Z
}.
Definition fixed_kind : kind := Struct [Int16; Uint16].
Definition fixed_value : Decoder fixed :=
  major <~ int16 ;;
  minor <~ uint16 ;;
  dret {| Major := major; Minor := minor |}.

Definition baseTable : Type := Tag.

(** ** table_os2.go: the data model *)

Record Panose : Type := {
  BFamilyType : Z;
  BSerifStyle : Z;
  BWeight : Z;
  BProportion : Z;
  BContrast : Z;
  BStrokeVariation : Z;
  BArmStyle : Z;
  BLetterform : Z;
  BMidline : Z;
  BXHeight : Z
}.

(** A [[4]uint32]. *)
Record uint32x4 : Type := {
  word0 : Z;
  word1 : Z;
  word2 : Z;
  word3 : Z
}.

(** [a[i]] on a [[4]uint32]; an index outside 0..3 panics. *)
Definition index4 (a : uint32x4) (i : Z) : option Z :=
  match i with
  | 0 => Some (word0 a)
  | 1 => Some (word1 a)
  | 2 => Some (word2 a)
  | 3 => Some (word3 a)
  | _ => None
  end.

Record TableOs2Original : Type := {
  Version : Z;
  XAvgCharWidth : Z;
  USWeightClass : Z;
  USWidthClass : Z;
  FSType : Z;
  YSubscriptXSize : Z;
  YSubscriptYSize : Z;
  YSubscriptXOffset : Z;
  YSubscriptYOffset : Z;
  YSuperscriptXSize : Z;
  YSuperscriptYSize : Z;
  YSuperscriptXOffset : Z;
  YSuperscriptYOffset : Z;
  YStrikeoutSize : Z;
  YStrikeoutPosition : Z;
  SFamilyClass : Z;
  OS2Panose : Panose;
  UlUnicodeRange : uint32x4;
  AchVendID : Tag;
  FsSelection : Z;
  FsFirstCharIndex : Z;
  FsLastCharIndex : Z
}.

Record TableOs2AdditionalFields : Type := {
  STypoAscender : Z;
  STypoDescender : Z;
  STypoLineGap : Z;
  UsWinAscent : Z;
  UsWinDescent : Z;
  UlCodePageRange1 : Z;
  UlCodePageRange2 : Z;
  SxHeigh : Z;
  SCapHeight : Z;
  UsDefaultChar : Z;
  UsBreakChar : Z;
  UsMaxContext : Z;
  UsLowerPointSize : Z;
  UsUpperPointSize : Z
}.

(** The zero value of [TableOs2AdditionalFields]: what a composite literal
    that does not name the field leaves in it. *)
Definition zeroAdditionalFields : TableOs2AdditionalFields :=
  {| STypoAscender := 0; STypoDescender := 0; STypoLineGap := 0;
     UsWinAscent := 0; UsWinDescent := 0;
     UlCodePageRange1 := 0; UlCodePageRange2 := 0;
     SxHeigh := 0; SCapHeight := 0;
     UsDefaultChar := 0; UsBreakChar := 0; UsMaxContext := 0;
     UsLowerPointSize := 0; UsUpperPointSize := 0 |}.

(** [TableOS2] embeds the two blocks by value; the embedded fields are named
    [original] and [additional] here, and a promoted field [t.F] is
    [F (original t)].  The fields [baseTable] and [bytes] carry the table's
    name, as does [Panose] in [TableOs2Original]. *)
Record TableOS2 : Type := {
  os2_baseTable : baseTable;
  original : TableOs2Original;
  additional : TableOs2AdditionalFields;
  os2_bytes : list byte
}.

(** ** table_os2.go: the wire layout of the structs *)

Definition Panose_kind : kind :=
  Struct [Uint8; Uint8; Uint8; Uint8; Uint8; Uint8; Uint8; Uint8; Uint8; Uint8].

Definition Panose_value : Decoder Panose :=
  familyType <~ uint8 ;;
  serifStyle <~ uint8 ;;
  weight <~ uint8 ;;
  proportion <~ uint8 ;;
  contrast <~ uint8 ;;
  strokeVariation <~ uint8 ;;
  armStyle <~ uint8 ;;
  letterform <~ uint8 ;;
  midline <~ uint8 ;;
  xHeight <~ uint8 ;;
  dret {| BFamilyType := familyType; BSerifStyle := serifStyle;
          BWeight := weight; BProportion := proportion;
          BContrast := contrast; BStrokeVariation := strokeVariation;
          BArmStyle := armStyle; BLetterform := letterform;
          BMidline := midline; BXHeight := xHeight |}.

Definition uint32x4_value : Decoder uint32x4 :=
  a0 <~ uint32 ;;
  a1 <~ uint32 ;;
  a2 <~ uint32 ;;
  a3 <~ uint32 ;;
  dret {| word0 := a0; word1 := a1; word2 := a2; word3 := a3 |}.

Definition TableOs2Original_kind : kind :=
  Struct [Uint16; Int16; Uint16; Uint16; Int16;
          Int16; Int16; Int16; Int16;
          Int16; Int16; Int16; Int16;
          Int16; Int16; Int16;
          Panose_kind; Array 4 Uint32; Tag_kind;
          Uint16; Uint16; Uint16].

Definition TableOs2Original_value : Decoder TableOs2Original :=
  version <~ uint16 ;;
  xAvgCharWidth <~ int16 ;;
  usWeightClass <~ uint16 ;;
  usWidthClass <~ uint16 ;;
  fsType <~ int16 ;;
  ySubscriptXSize <~ int16 ;;
  ySubscriptYSize <~ int16 ;;
  ySubscriptXOffset <~ int16 ;;
  ySubscriptYOffset <~ int16 ;;
  ySuperscriptXSize <~ int16 ;;
  ySuperscriptYSize <~ int16 ;;
  ySuperscriptXOffset <~ int16 ;;
  ySuperscriptYOffset <~ int16 ;;
  yStrikeoutSize <~ int16 ;;
  yStrikeoutPosition <~ int16 ;;
  sFamilyClass <~ int16 ;;
  panose <~ Panose_value ;;
  ulUnicodeRange <~ uint32x4_value ;;
  achVendID <~ Tag_value ;;
  fsSelection <~ uint16 ;;
  fsFirstCharIndex <~ uint16 ;;
  fsLastCharIndex <~ uint16 ;;
  dret {| Version := version; XAvgCharWidth := xAvgCharWidth;
          USWeightClass := usWeightClass; USWidthClass := usWidthClass;
          FSType := fsType;
          YSubscriptXSize := ySubscriptXSize; YSubscriptYSize := ySubscriptYSize;
          YSubscriptXOffset := ySubscriptXOffset;
          YSubscriptYOffset := ySubscriptYOffset;
          YSuperscriptXSize := ySuperscriptXSize;
          YSuperscriptYSize := ySuperscriptYSize;
          YSuperscriptXOffset := ySuperscriptXOffset;
          YSuperscriptYOffset := ySuperscriptYOffset;
          YStrikeoutSize := yStrikeoutSize;
          YStrikeoutPosition := yStrikeoutPosition;
          SFamilyClass := sFamilyClass; OS2Panose := panose;
          UlUnicodeRange := ulUnicodeRange; AchVendID := achVendID;
          FsSelection := fsSelection; FsFirstCharIndex := fsFirstCharIndex;
          FsLastCharIndex := fsLastCharIndex |}.

Definition TableOs2Original_type : binaryType TableOs2Original :=
  {| type_name := "*sfnt.TableOs2Original";
     type_kind := TableOs2Original_kind;
     type_value := TableOs2Original_value |}.

(** The wire layout of the trailing block, which no function reads. *)
Definition TableOs2AdditionalFields_kind : kind :=
  Struct [Int16; Int16; Int16; Uint16; Uint16; Uint32; Uint32;
          Int16; Int16; Uint16; Uint16; Uint16; Uint16; Uint16].

Definition TableOs2AdditionalFields_value : Decoder TableOs2AdditionalFields :=
  sTypoAscender <~ int16 ;;
  sTypoDescender <~ int16 ;;
  sTypoLineGap <~ int16 ;;
  usWinAscent <~ uint16 ;;
  usWinDescent <~ uint16 ;;
  ulCodePageRange1 <~ uint32 ;;
  ulCodePageRange2 <~ uint32 ;;
  sxHeigh <~ int16 ;;
  sCapHeight <~ int16 ;;
  usDefaultChar <~ uint16 ;;
  usBreakChar <~ uint16 ;;
  usMaxContext <~ uint16 ;;
  usLowerPointSize <~ uint16 ;;
  usUpperPointSize <~ uint16 ;;
  dret {| STypoAscender := sTypoAscender; STypoDescender := sTypoDescender;
          STypoLineGap := sTypoLineGap;
          UsWinAscent := usWinAscent; UsWinDescent := usWinDescent;
          UlCodePageRange1 := ulCodePageRange1;
          UlCodePageRange2 := ulCodePageRange2;
          SxHeigh := sxHeigh; SCapHeight := sCapHeight;
          UsDefaultChar := usDefaultChar; UsBreakChar := usBreakChar;
          UsMaxContext := usMaxContext;
          UsLowerPointSize := usLowerPointSize;
          UsUpperPointSize := usUpperPointSize |}.

(** ** table_os2.go: parseTableOS2 and Bytes *)

Definition parseTableOS2 (tag : Tag) (buf : list byte) : result TableOS2 :=
  run (originalTable <- binary_Read TableOs2Original_type ;;
       ret {| os2_baseTable := tag;
              original := originalTable;
              additional := zeroAdditionalFields;
              os2_bytes := buf |})
      (NewBuffer buf).

Definition OS2_Bytes (t : TableOS2) : list byte := os2_bytes t.

(** ** table_os2.go: classification accessors *)

(** [strconv.Itoa]: the decimal representation, with a leading minus sign
    for a negative number. *)
Definition Itoa (i : Z) : string := NilZero.string_of_int (Z.to_int i).

Definition WeightClass (t : TableOS2) : string :=
  match USWeightClass (original t) with
  | 1 => "Ultra-light"
  | 2 => "Extra-light"
  | 3 => "Light"
  | 4 => "Semi-light"
  | 5 => "Medium"
  | 6 => "Semi-bold"
  | 7 => "Bold"
  | 8 => "Extra-bold"
  | 9 => "Ultra-bold"
  | _ => Itoa (USWeightClass (original t))
  end.

Definition WidthClass (t : TableOS2) : string :=
  match USWidthClass (original t) with
  | 1 => "Ultra-condensed"
  | 2 => "Extra-condensed"
  | 3 => "Condensed"
  | 4 => "Semi-condensed"
  | 5 => "Medium"
  | 6 => "Semi-expanded"
  | 7 => "Expanded"
  | 8 => "Extra-expanded"
  | 9 => "Ultra-expanded"
  | _ => "Unknown"
  end.

(** The conversion [uint16(x)]. *)
Definition to_uint16 (x : Z) : Z := x mod 2 ^ 16.

Definition IsBold (t : TableOS2) : bool :=
  let mask := 32 in
  Z.land (to_uint16 mask) (FsSelection (original t)) =? to_uint16 32.

Definition IsStrikeout (t : TableOS2) : bool :=
  let mask := 16 in
  Z.land (to_uint16 mask) (FsSelection (original t)) =? to_uint16 16.

Definition IsOutlined (t : TableOS2) : bool :=
  let mask := 8 in
  Z.land (to_uint16 mask) (FsSelection (original t)) =? to_uint16 8.

Definition IsNegative (t : TableOS2) : bool :=
  let mask := 4 in
  Z.land (to_uint16 mask) (FsSelection (original t)) =? to_uint16 4.

Definition IsUnderscore (t : TableOS2) : bool :=
  let mask := 2 in
  Z.land (to_uint16 mask) (FsSelection (original t)) =? to_uint16 2.

Definition IsItalic (t : TableOS2) : bool :=
  let mask := 1 in
  Z.land (to_uint16 mask) (FsSelection (original t)) =? to_uint16 1.

Definition FontStyle (t : TableOS2) : string :=
  if IsItalic t then "italic"
  else if IsBold t then "bold"
  else if IsUnderscore t then "underscore"
  else if IsOutlined t then "outlined"
  else if IsStrikeout t then "strikeout"
  else if IsNegative t then "negative"
  else "normal".

(** ** table_os2.go: Unicode coverage *)

Record UnicodeSupport : Type := {
  BitIndex : Z;
  Name : string;
  UnicodeRanges : list string
}.

(** [uint32(math.Exp2(float64(e)))] for the values [BitIndex % 32] takes:
    a power of two up to [2^31] is exact in a [float64] and fits a [uint32];
    a negative exponent gives a fraction below 1, which the conversion
    truncates to 0. *)
Definition exp2_uint32 (e : Z) : Z := if e <? 0 then 0 else 2 ^ e.

(** Go's [/] and [%] on [int] truncate towards zero. *)
Definition isSupported (s : UnicodeSupport) (unicodeRangeMask : uint32x4) : option bool :=
  let applicableBitMaskIndex := Z.quot (BitIndex s) 32 in
  let exponentValue := Z.rem (BitIndex s) 32 in
  match index4 unicodeRangeMask applicableBitMaskIndex with
  | Some word => Some (negb (Z.land (exp2_uint32 exponentValue) word =? 0))
  | None => None
  end.

(** The inner loop of [UnicodeRanges]: [ranges = append(ranges, "U+"+r)]. *)
Fixpoint appendRanges (ranges : list string) (rs : list string) : list string :=
  match rs with
  | [] => ranges
  | r :: rs' => appendRanges (ranges ++ [("U+" ++ r)%string]) rs'
  end.

(** The outer loop of [UnicodeRanges] over the entries still to visit. *)
Fixpoint rangesLoop (entries : list UnicodeSupport) (mask : uint32x4)
    (ranges : list string) : option (list string) :=
  match entries with
  | [] => Some ranges
  | unicodeRange :: rest =>
      match isSupported unicodeRange mask with
      | None => None
      | Some true => rangesLoop rest mask (appendRanges ranges (UnicodeRanges unicodeRange))
      | Some false => rangesLoop rest mask ranges
      end
  end.

(** Definitions based on
    https://docs.microsoft.com/en-us/typography/opentype/spec/os2#ur *)
Definition BasicLatin : UnicodeSupport :=
  {| BitIndex := 0; Name := "Basic Latin";
     UnicodeRanges := ["0000-007F"] |}.
Definition Latin1Supplement : UnicodeSupport :=
  {| BitIndex := 1; Name := "Latin-1 Supplement";
     UnicodeRanges := ["0080-00FF"] |}.
Definition LatinExtendedA : UnicodeSupport :=
  {| BitIndex := 2; Name := "Latin Extended-A";
     UnicodeRanges := ["0100-017F"] |}.
Definition LatinExtendedB : UnicodeSupport :=
  {| BitIndex := 3; Name := "Latin Extended-B";
     UnicodeRanges := ["0180-024F"] |}.
Definition IPAPhonetic : UnicodeSupport :=
  {| BitIndex := 4; Name := "IPA & Phonetic Extensions/Supplements";
     UnicodeRanges := ["0250-02AF"; "1D00-1D7F"; "1D80-1DBF"] |}.
Definition SpacingModifierLetters : UnicodeSupport :=
  {| BitIndex := 5; Name := "Spacing Modifier Letters";
     UnicodeRanges := ["02B0-02FF"; "A700-A71F"] |}.
Definition CombiningDiacriticalMarks : UnicodeSupport :=
  {| BitIndex := 6; Name := "Combining Diacritical Marks & Supplements";
     UnicodeRanges := ["0300-036F"; "1DC0-1DFF"] |}.
Definition GreekCoptic : UnicodeSupport :=
  {| BitIndex := 7; Name := "Greek and Coptic";
     UnicodeRanges := ["0370-03FF"] |}.
Definition Coptic : UnicodeSupport :=
  {| BitIndex := 8; Name := "Coptic";
     UnicodeRanges := ["2C80-2CFF"] |}.
Definition Cyrillic : UnicodeSupport :=
  {| BitIndex := 9; Name := "Cyrillic";
     UnicodeRanges := ["0400-04FF"; "0500-052F"; "2DE0-2DFF"; "A640-A69F"] |}.
Definition Armenian : UnicodeSupport :=
  {| BitIndex := 10; Name := "Armenian";
     UnicodeRanges := ["0530-058F"] |}.
Definition Hebrew : UnicodeSupport :=
  {| BitIndex := 11; Name := "Hebrew";
     UnicodeRanges := ["0590-05FF"] |}.
Definition Vai : UnicodeSupport :=
  {| BitIndex := 12; Name := "Vai";
     UnicodeRanges := ["A500-A63F"] |}.
Definition Arabic : UnicodeSupport :=
  {| BitIndex := 13; Name := "Arabic";
     UnicodeRanges := ["0600-06FF"; "0750-077F"] |}.
Definition NKo : UnicodeSupport :=
  {| BitIndex := 14; Name := "NKo";
     UnicodeRanges := ["07C0-07FF"] |}.
Definition Devanagari : UnicodeSupport :=
  {| BitIndex := 15; Name := "Devanagari";
     UnicodeRanges := ["0900-097F"] |}.
Definition Bengali : UnicodeSupport :=
  {| BitIndex := 16; Name := "Bengali";
     UnicodeRanges := ["0980-09FF"] |}.
Definition Gurmukhi : UnicodeSupport :=
  {| BitIndex := 17; Name := "Gurmukhi";
     UnicodeRanges := ["0A00-0A7F"] |}.
Definition Gujarati : UnicodeSupport :=
  {| BitIndex := 18; Name := "Gujarati";
     UnicodeRanges := ["0A80-0AFF"] |}.
Definition Oriya : UnicodeSupport :=
  {| BitIndex := 19; Name := "Oriya";
     UnicodeRanges := ["0B00-0B7F"] |}.
Definition Tamil : UnicodeSupport :=
  {| BitIndex := 20; Name := "Tamil";
     UnicodeRanges := ["0B80-0BFF"] |}.
Definition Telugu : UnicodeSupport :=
  {| BitIndex := 21; Name := "Telugu";
     UnicodeRanges := ["0C00-0C7F"] |}.
Definition Kannada : UnicodeSupport :=
  {| BitIndex := 22; Name := "Kannada";
     UnicodeRanges := ["0C80-0CFF"] |}.
Definition Malayalam : UnicodeSupport :=
  {| BitIndex := 23; Name := "Malayalam";
     UnicodeRanges := ["0D00-0D7F"] |}.
Definition Thai : UnicodeSupport :=
  {| BitIndex := 24; Name := "Thai";
     UnicodeRanges := ["0E00-0E7F"] |}.
Definition Lao : UnicodeSupport :=
  {| BitIndex := 25; Name := "Lao";
     UnicodeRanges := ["0E80-0EFF"] |}.
Definition Georgian : UnicodeSupport :=
  {| BitIndex := 26; Name := "Georgian and supplement";
     UnicodeRanges := ["10A0-10FF"; "2D00-2D2F"] |}.
Definition Balinese : UnicodeSupport :=
  {| BitIndex := 27; Name := "Balinese";
     UnicodeRanges := ["1B00-1B7F"] |}.
Definition HangulJamo : UnicodeSupport :=
  {| BitIndex := 28; Name := "Hangul Jamo";
     UnicodeRanges := ["1100-11FF"] |}.
Definition LatinExtendedAdditional : UnicodeSupport :=
  {| BitIndex := 29; Name := "Latin Extended Additional";
     UnicodeRanges := ["1E00-1EFF"; "2C60-2C7F"; "A720-A7FF"] |}.
Definition GreekExtended : UnicodeSupport :=
  {| BitIndex := 30; Name := "Greek Extended";
     UnicodeRanges := ["1F00-1FFF"] |}.
Definition GeneralPunctuation : UnicodeSupport :=
  {| BitIndex := 31; Name := "General & Supplemental Punctuation";
     UnicodeRanges := ["2000-206F"; "2E00-2E7F"] |}.
Definition SuperAndSubScripts : UnicodeSupport :=
  {| BitIndex := 32; Name := "Superscripts And Subscripts";
     UnicodeRanges := ["2070-209F"] |}.
Definition CurrencySymbols : UnicodeSupport :=
  {| BitIndex := 33; Name := "Currency Symbols";
     UnicodeRanges := ["20A0-20CF"] |}.
Definition CDMSymbols : UnicodeSupport :=
  {| BitIndex := 34; Name := "Combining Diacritical Marks For Symbols";
     UnicodeRanges := ["20D0-20FF"] |}.
Definition LetterlikeSymbols : UnicodeSupport :=
  {| BitIndex := 35; Name := "Letterlike Symbols";
     UnicodeRanges := ["2100-214F"] |}.
Definition NumberForms : UnicodeSupport :=
  {| BitIndex := 36; Name := "Number Forms";
     UnicodeRanges := ["2150-218F"] |}.
Definition Arrows : UnicodeSupport :=
  {| BitIndex := 37; Name := "Arrows";
     UnicodeRanges := ["2190-21FF"; "27F0-27FF"; "2900-297F"; "2B00-2BFF"] |}.
Definition MathematicalOperators : UnicodeSupport :=
  {| BitIndex := 38; Name := "Mathematical Operators";
     UnicodeRanges := ["2200-22FF"; "2A00-2AFF"; "27C0-27EF"; "2980-29FF"] |}.
Definition MiscellaneousTechnical : UnicodeSupport :=
  {| BitIndex := 39; Name := "Miscellaneous Technical";
     UnicodeRanges := ["2300-23FF"] |}.
Definition ControlPictures : UnicodeSupport :=
  {| BitIndex := 40; Name := "Control Pictures";
     UnicodeRanges := ["2400-243F"] |}.
Definition OpticalCharacterRecognition : UnicodeSupport :=
  {| BitIndex := 41; Name := "Optical Character Recognition";
     UnicodeRanges := ["2440-245F"] |}.
Definition EnclosedAlphanumerics : UnicodeSupport :=
  {| BitIndex := 42; Name := "Enclosed Alphanumerics";
     UnicodeRanges := ["2460-24FF"] |}.
Definition BoxDrawing : UnicodeSupport :=
  {| BitIndex := 43; Name := "Box Drawing";
     UnicodeRanges := ["2500-257F"] |}.
Definition BlockElements : UnicodeSupport :=
  {| BitIndex := 44; Name := "Block Elements";
     UnicodeRanges := ["2580-259F"] |}.
Definition GeometricShapes : UnicodeSupport :=
  {| BitIndex := 45; Name := "Geometric Shapes";
     UnicodeRanges := ["25A0-25FF"] |}.
Definition MiscellaneousSymbols : UnicodeSupport :=
  {| BitIndex := 46; Name := "Miscellaneous Symbols";
     UnicodeRanges := ["2600-26FF"] |}.
Definition Dingbats : UnicodeSupport :=
  {| BitIndex := 47; Name := "Dingbats";
     UnicodeRanges := ["2700-27BF"] |}.
Definition CJKSymbolsPunctuation : UnicodeSupport :=
  {| BitIndex := 48; Name := "CJK Symbols And Punctuation";
     UnicodeRanges := ["3000-303F"] |}.
Definition Hiragana : UnicodeSupport :=
  {| BitIndex := 49; Name := "Hiragana";
     UnicodeRanges := ["3040-309F"] |}.
Definition Katakana : UnicodeSupport :=
  {| BitIndex := 50; Name := "Katakana & Phonetic Extensions";
     UnicodeRanges := ["30A0-30FF"; "31F0-31FF"] |}.
Definition Bopomofo : UnicodeSupport :=
  {| BitIndex := 51; Name := "Bopomofo & Extended";
     UnicodeRanges := ["3100-312F"; "31A0-31BF"] |}.
Definition HangulCompatibilityJamo : UnicodeSupport :=
  {| BitIndex := 52; Name := "Hangul Compatibility Jamo";
     UnicodeRanges := ["3130-318F"] |}.
Definition PhagsPa : UnicodeSupport :=
  {| BitIndex := 53; Name := "Phags-pa";
     UnicodeRanges := ["A840-A87F"] |}.
Definition EnclosedCJKLettersMonths : UnicodeSupport :=
  {| BitIndex := 54; Name := "Enclosed CJK Letters And Months";
     UnicodeRanges := ["3200-32FF"] |}.
Definition CJKCompatibility : UnicodeSupport :=
  {| BitIndex := 55; Name := "CJK Compatibility";
     UnicodeRanges := ["3300-33FF"] |}.
Definition HangulSyllables : UnicodeSupport :=
  {| BitIndex := 56; Name := "Hangul Syllables";
     UnicodeRanges := ["AC00-D7AF"] |}.
Definition NonPlane0 : UnicodeSupport :=
  {| BitIndex := 57; Name := "Non-Plane 0";
     UnicodeRanges := ["10000-10FFFF"] |}.
Definition Phoenician : UnicodeSupport :=
  {| BitIndex := 58; Name := "Phoenician";
     UnicodeRanges := ["10900-1091F"] |}.
Definition CJKIdeographsRadicals : UnicodeSupport :=
  {| BitIndex := 59; Name := "CJK Ideographs & Radicals";
     UnicodeRanges := ["4E00-9FFF"; "2E80-2EFF"; "2F00-2FDF"; "2FF0-2FFF"; "3400-4DBF"; "20000-2A6DF"; "3190-319F"] |}.
Definition PrivateUseAreaPlane0 : UnicodeSupport :=
  {| BitIndex := 60; Name := "Private Use Area  Plane 0";
     UnicodeRanges := ["E000-F8FF"] |}.
Definition CJKStrokes : UnicodeSupport :=
  {| BitIndex := 61; Name := "CJK Strokes";
     UnicodeRanges := ["31C0-31EF"; "F900-FAFF"; "2F800-2FA1F"] |}.
Definition AlphabeticPresentationForms : UnicodeSupport :=
  {| BitIndex := 62; Name := "Alphabetic Presentation Forms";
     UnicodeRanges := ["FB00-FB4F"] |}.
Definition ArabicPresentationFormsA : UnicodeSupport :=
  {| BitIndex := 63; Name := "Arabic Presentation Forms-A";
     UnicodeRanges := ["FB50-FDFF"] |}.
Definition CombiningHalfMarks : UnicodeSupport :=
  {| BitIndex := 64; Name := "Combining Half Marks";
     UnicodeRanges := ["FE20-FE2F"] |}.
Definition VerticalForms : UnicodeSupport :=
  {| BitIndex := 65; Name := "Vertical Forms";
     UnicodeRanges := ["FE10-FE1F"; "FE30-FE4F"] |}.
Definition SmallFormVariants : UnicodeSupport :=
  {| BitIndex := 66; Name := "Small Form Variants";
     UnicodeRanges := ["FE50-FE6F"] |}.
Definition ArabicPresentationFormsB : UnicodeSupport :=
  {| BitIndex := 67; Name := "Arabic Presentation Forms-B";
     UnicodeRanges := ["FE70-FEFF"] |}.
Definition HalfwidthFullwidthForms : UnicodeSupport :=
  {| BitIndex := 68; Name := "Halfwidth And Fullwidth Forms";
     UnicodeRanges := ["FF00-FFEF"] |}.
Definition Specials : UnicodeSupport :=
  {| BitIndex := 69; Name := "Specials";
     UnicodeRanges := ["FFF0-FFFF"] |}.
Definition Tibetan : UnicodeSupport :=
  {| BitIndex := 70; Name := "Tibetan";
     UnicodeRanges := ["0F00-0FFF"] |}.
Definition Syriac : UnicodeSupport :=
  {| BitIndex := 71; Name := "Syriac";
     UnicodeRanges := ["0700-074F"] |}.
Definition Thaana : UnicodeSupport :=
  {| BitIndex := 72; Name := "Thaana";
     UnicodeRanges := ["0780-07BF"] |}.
Definition Sinhala : UnicodeSupport :=
  {| BitIndex := 73; Name := "Sinhala";
     UnicodeRanges := ["0D80-0DFF"] |}.
Definition Myanmar : UnicodeSupport :=
  {| BitIndex := 74; Name := "Myanmar";
     UnicodeRanges := ["1000-109F"] |}.
Definition Ethiopic : UnicodeSupport :=
  {| BitIndex := 75; Name := "Ethiopic";
     UnicodeRanges := ["1200-137F"; "1380-139F"; "2D80-2DDF"] |}.
Definition Cherokee : UnicodeSupport :=
  {| BitIndex := 76; Name := "Cherokee";
     UnicodeRanges := ["13A0-13FF"] |}.
Definition UnifiedCanadianAboriginalSyllabics : UnicodeSupport :=
  {| BitIndex := 77; Name := "Unified Canadian Aboriginal Syllabics";
     UnicodeRanges := ["1400-167F"] |}.
Definition Runic : UnicodeSupport :=
  {| BitIndex := 79; Name := "Runic";
     UnicodeRanges := ["16A0-16FF"] |}.
Definition Khmer : UnicodeSupport :=
  {| BitIndex := 80; Name := "Khmer";
     UnicodeRanges := ["1780-17FF"; "19E0-19FF"] |}.
Definition Mongolian : UnicodeSupport :=
  {| BitIndex := 81; Name := "Mongolian";
     UnicodeRanges := ["1800-18AF"] |}.
Definition BraillePatterns : UnicodeSupport :=
  {| BitIndex := 82; Name := "Braille Patterns";
     UnicodeRanges := ["2800-28FF"] |}.
Definition YiSyllablesRadicals : UnicodeSupport :=
  {| BitIndex := 83; Name := "Yi Syllables & Radicals";
     UnicodeRanges := ["A000-A48F"; "A490-A4CF"] |}.
Definition TagalogRelated : UnicodeSupport :=
  {| BitIndex := 84; Name := "Tagalog And Related";
     UnicodeRanges := ["1700-171F"; "1720-173F"; "1740-175F"; "1760-177F"] |}.
Definition OldItalic : UnicodeSupport :=
  {| BitIndex := 85; Name := "Old Italic";
     UnicodeRanges := ["10300-1032F"] |}.
Definition Gothic : UnicodeSupport :=
  {| BitIndex := 86; Name := "Gothic";
     UnicodeRanges := ["10330-1034F"] |}.
Definition Deseret : UnicodeSupport :=
  {| BitIndex := 87; Name := "Deseret";
     UnicodeRanges := ["10400-1044F"] |}.
Definition MusicalSymbols : UnicodeSupport :=
  {| BitIndex := 88; Name := "Sinhala";
     UnicodeRanges := ["1D000-1D0FF"; "1D100-1D1FF"; "1D200-1D24F"] |}.
Definition MathematicalAlphanumericSymbols : UnicodeSupport :=
  {| BitIndex := 89; Name := "Mathematical Alphanumeric Symbols";
     UnicodeRanges := ["1D400-1D7FF"] |}.
Definition PrivateUsePlane1516 : UnicodeSupport :=
  {| BitIndex := 90; Name := "Private Use (plane 15 & 16)";
     UnicodeRanges := ["F0000-FFFFD"; "100000-10FFFD"] |}.
Definition VariationSelectors : UnicodeSupport :=
  {| BitIndex := 91; Name := "Variation Selectors";
     UnicodeRanges := ["FE00-FE0F"; "E0100-E01EF"] |}.
Definition Tags : UnicodeSupport :=
  {| BitIndex := 92; Name := "Tags";
     UnicodeRanges := ["E0000-E007F"] |}.
Definition Limbu : UnicodeSupport :=
  {| BitIndex := 93; Name := "Limbu";
     UnicodeRanges := ["1900-194F"] |}.
Definition TaiLe : UnicodeSupport :=
  {| BitIndex := 94; Name := "Tai Le";
     UnicodeRanges := ["1950-197F"] |}.
Definition NewTaiLue : UnicodeSupport :=
  {| BitIndex := 95; Name := "New Tai Lue";
     UnicodeRanges := ["1980-19DF"] |}.
Definition Buginese : UnicodeSupport :=
  {| BitIndex := 96; Name := "Buginese";
     UnicodeRanges := ["1A00-1A1F"] |}.
Definition Glagolitic : UnicodeSupport :=
  {| BitIndex := 97; Name := "Glagolitic";
     UnicodeRanges := ["2C00-2C5F"] |}.
Definition Tifinagh : UnicodeSupport :=
  {| BitIndex := 98; Name := "Tifinagh";
     UnicodeRanges := ["2D30-2D7F"] |}.
Definition YijingHexagramSymbols : UnicodeSupport :=
  {| BitIndex := 99; Name := "Yijing Hexagram Symbols";
     UnicodeRanges := ["4DC0-4DFF"] |}.
Definition SylotiNagri : UnicodeSupport :=
  {| BitIndex := 100; Name := "Syloti Nagri";
     UnicodeRanges := ["A800-A82F"] |}.
Definition LinearBAegean : UnicodeSupport :=
  {| BitIndex := 101; Name := "Linear B Syllabary & Aegean";
     UnicodeRanges := ["10000-1007F"; "10080-100FF"; "10100-1013F"] |}.
Definition AncientGreekNumbers : UnicodeSupport :=
  {| BitIndex := 102; Name := "Ancient Greek Numbers";
     UnicodeRanges := ["10140-1018F"] |}.
Definition Ugaritic : UnicodeSupport :=
  {| BitIndex := 103; Name := "Ugaritic";
     UnicodeRanges := ["10380-1039F"] |}.
Definition OldPersian : UnicodeSupport :=
  {| BitIndex := 104; Name := "Old Persian";
     UnicodeRanges := ["103A0-103DF"] |}.
Definition Shavian : UnicodeSupport :=
  {| BitIndex := 105; Name := "Shavian";
     UnicodeRanges := ["10450-1047F"] |}.
Definition Osmanya : UnicodeSupport :=
  {| BitIndex := 106; Name := "Osmanya";
     UnicodeRanges := ["10480-104AF"] |}.
Definition CypriotSyllabary : UnicodeSupport :=
  {| BitIndex := 107; Name := "Cypriot Syllabary";
     UnicodeRanges := ["10800-1083F"] |}.
Definition Kharoshthi : UnicodeSupport :=
  {| BitIndex := 108; Name := "Kharoshthi";
     UnicodeRanges := ["10A00-10A5F"] |}.
Definition TaiXuanJingSymbols : UnicodeSupport :=
  {| BitIndex := 109; Name := "Tai Xuan Jing Symbols";
     UnicodeRanges := ["1D300-1D35F"] |}.
Definition Cuneiform : UnicodeSupport :=
  {| BitIndex := 110; Name := "Cuneiform";
     UnicodeRanges := ["12000-123FF"; "12400-1247F"] |}.
Definition CountingRodNumerals : UnicodeSupport :=
  {| BitIndex := 111; Name := "Counting Rod Numerals";
     UnicodeRanges := ["1D360-1D37F"] |}.
Definition Sundanese : UnicodeSupport :=
  {| BitIndex := 112; Name := "Sundanese";
     UnicodeRanges := ["1B80-1BBF"] |}.
Definition Lepcha : UnicodeSupport :=
  {| BitIndex := 113; Name := "Lepcha";
     UnicodeRanges := ["1C00-1C4F"] |}.
Definition OlChiki : UnicodeSupport :=
  {| BitIndex := 114; Name := "Ol Chiki";
     UnicodeRanges := ["1C50-1C7F"] |}.
Definition Saurashtra : UnicodeSupport :=
  {| BitIndex := 115; Name := "Saurashtra";
     UnicodeRanges := ["A880-A8DF"] |}.
Definition KayahLi : UnicodeSupport :=
  {| BitIndex := 116; Name := "Kayah Li";
     UnicodeRanges := ["A900-A92F"] |}.
Definition Rejang : UnicodeSupport :=
  {| BitIndex := 117; Name := "Rejang";
     UnicodeRanges := ["A930-A95F"] |}.
Definition Cham : UnicodeSupport :=
  {| BitIndex := 118; Name := "Cham";
     UnicodeRanges := ["AA00-AA5F"] |}.
Definition AncientSymbols : UnicodeSupport :=
  {| BitIndex := 119; Name := "Ancient Symbols";
     UnicodeRanges := ["10190-101CF"] |}.
Definition PhaistosDisc : UnicodeSupport :=
  {| BitIndex := 120; Name := "Phaistos Disc";
     UnicodeRanges := ["101D0-101FF"] |}.
Definition CarianLycianLydian : UnicodeSupport :=
  {| BitIndex := 121; Name := "Carian Lycian Lydian";
     UnicodeRanges := ["102A0-102DF"; "10280-1029F"; "10920-1093F"] |}.
Definition DominoMahjong : UnicodeSupport :=
  {| BitIndex := 122; Name := "Domino & Mahjong Tiles";
     UnicodeRanges := ["1F030-1F09F"; "1F000-1F02F"] |}.

(** [SupportedUnicodeRanges] as [table_os2.go] declares it: the entries up
    to bit 39. *)
Definition SupportedUnicodeRanges : list UnicodeSupport :=
  [BasicLatin; Latin1Supplement; LatinExtendedA; LatinExtendedB; IPAPhonetic;
   SpacingModifierLetters; CombiningDiacriticalMarks; GreekCoptic; Coptic;
   Cyrillic; Armenian; Hebrew; Arabic; Vai; NKo; Devanagari; Bengali;
   Gurmukhi; Gujarati; Oriya; Tamil; Telugu; Kannada; Malayalam; Thai; Lao;
   Georgian; Balinese; HangulJamo; LatinExtendedAdditional; GreekExtended;
   GeneralPunctuation; SuperAndSubScripts; CurrencySymbols; CDMSymbols;
   LetterlikeSymbols; NumberForms; Arrows; MathematicalOperators;
   MiscellaneousTechnical].

(** [SupportedUnicodeRanges] in the longer revision of [table_os2.go] that
    is carried after [table_fvar.go]: the entries up to bit 122. *)
Definition SupportedUnicodeRanges_full : list UnicodeSupport :=
  [BasicLatin; Latin1Supplement; LatinExtendedA; LatinExtendedB; IPAPhonetic;
   SpacingModifierLetters; CombiningDiacriticalMarks; GreekCoptic; Coptic;
   Cyrillic; Armenian; Hebrew; Arabic; Vai; NKo; Devanagari; Bengali;
   Gurmukhi; Gujarati; Oriya; Tamil; Telugu; Kannada; Malayalam; Thai; Lao;
   Georgian; Balinese; HangulJamo; LatinExtendedAdditional; GreekExtended;
   GeneralPunctuation; SuperAndSubScripts; CurrencySymbols; CDMSymbols;
   LetterlikeSymbols; NumberForms; Arrows; MathematicalOperators;
   MiscellaneousTechnical; ControlPictures; OpticalCharacterRecognition;
   EnclosedAlphanumerics; BoxDrawing; BlockElements; GeometricShapes;
   MiscellaneousSymbols; Dingbats; CJKSymbolsPunctuation; Hiragana; Katakana;
   Bopomofo; HangulCompatibilityJamo; PhagsPa; EnclosedCJKLettersMonths;
   CJKCompatibility; HangulSyllables; NonPlane0; Phoenician;
   CJKIdeographsRadicals; PrivateUseAreaPlane0; CJKStrokes;
   AlphabeticPresentationForms; ArabicPresentationFormsA; CombiningHalfMarks;
   SmallFormVariants; VerticalForms; ArabicPresentationFormsB;
   HalfwidthFullwidthForms; Specials; Tibetan; Syriac; Thaana; Sinhala;
   Myanmar; Ethiopic; Cherokee; UnifiedCanadianAboriginalSyllabics; Runic;
   Khmer; Mongolian; YiSyllablesRadicals; BraillePatterns; TagalogRelated;
   OldItalic; Gothic; MusicalSymbols; Deseret;
   MathematicalAlphanumericSymbols; PrivateUsePlane1516; VariationSelectors;
   Tags; Limbu; TaiLe; NewTaiLue; Glagolitic; Tifinagh; Buginese;
   YijingHexagramSymbols; SylotiNagri; LinearBAegean; AncientGreekNumbers;
   Ugaritic; OldPersian; Shavian; Osmanya; CypriotSyllabary; Kharoshthi;
   TaiXuanJingSymbols; Cuneiform; CountingRodNumerals; Sundanese; Lepcha;
   OlChiki; Saurashtra; KayahLi; Rejang; Cham; AncientSymbols; PhaistosDisc;
   CarianLycianLydian; DominoMahjong].

(** The method [UnicodeRanges], over a given catalog. *)
Definition UnicodeRangesOver (catalog : list UnicodeSupport) (t : TableOS2)
    : option (list string) :=
  rangesLoop catalog (UlUnicodeRange (original t)) [].

Definition TableOS2_UnicodeRanges (t : TableOS2) : option (list string) :=
  UnicodeRangesOver SupportedUnicodeRanges t.

Definition TableOS2_UnicodeRanges_full (t : TableOS2) : option (list string) :=
  UnicodeRangesOver SupportedUnicodeRanges_full t.

(** ** table_fvar.go: the data model *)

Record FvarHeader : Type := {
  MajorVersion : Z;
  MinorVersion : Z;
  OffsetToData : Z;
  CountSizePairs : Z;
  AxisCount : Z;
  AxisSize : Z;
  InstanceCount : Z;
  InstanceSize : Z
}.

(** [Flags] and [NameID] name fields of several structs (and [NameID] a
    type); the fields carry the struct's name here.  The field [Instance] of
    [TableFvar] is [Instances]. *)
Record VariationAxis : Type := {
  AxisTag : Z;
  MinValue : fixed;
  DefaultValue : fixed;
  MaxValue : fixed;
  Axis_Flags : Z;
  Axis_NameID : NameID
}.

(** [Coord] is a [[]*fixed] and [PsNameID] a [*NameID]: [None] is [nil]. *)
Record Instance : Type := {
  Instance_NameID : NameID;
  Instance_Flags : Z;
  Coord : list fixed;
  PsNameID : option NameID
}.

Record InstanceWithoutPSName : Type := {
  NoPS_NameID : NameID;
  NoPS_Flags : Z;
  NoPS_Coord : list fixed
}.

Record TableFvar : Type := {
  fvar_baseTable : baseTable;
  Header : FvarHeader;
  Axis : list VariationAxis;
  Instances : list Instance;
  fvar_bytes : list byte
}.

Definition Fvar_Bytes (t : TableFvar) : list byte := fvar_bytes t.

(** ** table_fvar.go: the wire layout of the structs *)

Definition FvarHeader_kind : kind :=
  Struct [Uint16; Uint16; Uint16; Uint16; Uint16; Uint16; Uint16; Uint16].

Definition FvarHeader_value : Decoder FvarHeader :=
  majorVersion <~ uint16 ;;
  minorVersion <~ uint16 ;;
  offsetToData <~ uint16 ;;
  countSizePairs <~ uint16 ;;
  axisCount <~ uint16 ;;
  axisSize <~ uint16 ;;
  instanceCount <~ uint16 ;;
  instanceSize <~ uint16 ;;
  dret {| MajorVersion := majorVersion; MinorVersion := minorVersion;
          OffsetToData := offsetToData; CountSizePairs := countSizePairs;
          AxisCount := axisCount; AxisSize := axisSize;
          InstanceCount := instanceCount; InstanceSize := instanceSize |}.

Definition FvarHeader_type : binaryType FvarHeader :=
  {| type_name := "*sfnt.FvarHeader";
     type_kind := FvarHeader_kind;
     type_value := FvarHeader_value |}.

Definition VariationAxis_kind : kind :=
  Struct [Uint32; fixed_kind; fixed_kind; fixed_kind; Uint16; NameID_kind].

Definition VariationAxis_value : Decoder VariationAxis :=
  axisTag <~ uint32 ;;
  minValue <~ fixed_value ;;
  defaultValue <~ fixed_value ;;
  maxValue <~ fixed_value ;;
  flags <~ uint16 ;;
  nameID <~ NameID_value ;;
  dret {| AxisTag := axisTag; MinValue := minValue;
          DefaultValue := defaultValue; MaxValue := maxValue;
          Axis_Flags := flags; Axis_NameID := nameID |}.

Definition VariationAxis_type : binaryType VariationAxis :=
  {| type_name := "*sfnt.VariationAxis";
     type_kind := VariationAxis_kind;
     type_value := VariationAxis_value |}.

(** [decoder.value] walks a slice over its current length, which is 0 for
    the [nil] slice of a fresh variable, and has no case for a pointer: both
    fields would keep their zero value. *)
Definition Instance_kind : kind :=
  Struct [NameID_kind; Uint16; Slice (Pointer fixed_kind); Pointer NameID_kind].

Definition Instance_value : Decoder Instance :=
  nameID <~ NameID_value ;;
  flags <~ uint16 ;;
  dret {| Instance_NameID := nameID; Instance_Flags := flags;
          Coord := []; PsNameID := None |}.

Definition Instance_type : binaryType Instance :=
  {| type_name := "*sfnt.Instance";
     type_kind := Instance_kind;
     type_value := Instance_value |}.

Definition InstanceWithoutPSName_kind : kind :=
  Struct [NameID_kind; Uint16; Slice (Pointer fixed_kind)].

Definition InstanceWithoutPSName_value : Decoder InstanceWithoutPSName :=
  nameID <~ NameID_value ;;
  flags <~ uint16 ;;
  dret {| NoPS_NameID := nameID; NoPS_Flags := flags; NoPS_Coord := [] |}.

Definition InstanceWithoutPSName_type : binaryType InstanceWithoutPSName :=
  {| type_name := "*sfnt.InstanceWithoutPSName";
     type_kind := InstanceWithoutPSName_kind;
     type_value := InstanceWithoutPSName_value |}.

(** ** table_fvar.go: parseTableFvar *)

(** The width of Go's [int], which the target fixes. *)
Inductive arch : Type :=
| Arch32
| Arch64.

(** [unsafe.Sizeof(types.Uint16)] and [unsafe.Sizeof(types.Int16)]: the two
    operands are constants of type [types.BasicKind], declared in [go/types]
    as [type BasicKind int], so both are the size of an [int]. *)
Definition Sizeof_BasicKind (a : arch) : Z :=
  match a with
  | Arch32 => 4
  | Arch64 => 8
  end.

Definition noPsNameIdVariant (a : arch) : Z :=
  to_uint16 (2 * to_uint16 (Sizeof_BasicKind a)).

Definition invariant (a : arch) : Z :=
  to_uint16 (to_uint16 (Sizeof_BasicKind a) + to_uint16 (Sizeof_BasicKind a)).

(** The test at the head of the instance loop's body. *)
Definition withoutPSName (a : arch) (header : FvarHeader) : bool :=
  InstanceSize header =? to_uint16 (noPsNameIdVariant a + invariant a).

(** The axis loop, with [count] iterations to go. *)
Fixpoint readAxes (count : nat) (axes : list VariationAxis)
    : Reader (list VariationAxis) :=
  match count with
  | O => ret axes
  | S count' =>
      axis <- binary_Read VariationAxis_type ;;
      readAxes count'
        (axes ++ [{| AxisTag := AxisTag axis; MinValue := MinValue axis;
                     DefaultValue := DefaultValue axis;
                     MaxValue := MaxValue axis;
                     Axis_Flags := Axis_Flags axis;
                     Axis_NameID := Axis_NameID axis |}])
  end.

(** The instance loop, with [count] iterations to go. *)
Fixpoint readInstances (a : arch) (header : FvarHeader) (count : nat)
    (instances : list Instance) : Reader (list Instance) :=
  match count with
  | O => ret instances
  | S count' =>
      if withoutPSName a header then
        instance <- binary_Read InstanceWithoutPSName_type ;;
        readInstances a header count'
          (instances ++ [{| Instance_NameID := NoPS_NameID instance;
                            Instance_Flags := NoPS_Flags instance;
                            Coord := NoPS_Coord instance;
                            PsNameID := None |}])
      else
        instance <- binary_Read Instance_type ;;
        readInstances a header count'
          (instances ++ [{| Instance_NameID := Instance_NameID instance;
                            Instance_Flags := Instance_Flags instance;
                            Coord := Coord instance;
                            PsNameID := PsNameID instance |}])
  end.

Definition parseTableFvar (a : arch) (tag : Tag) (buf : list byte)
    : result TableFvar :=
  run (header <- binary_Read FvarHeader_type ;;
       axes <- readAxes (Z.to_nat (AxisCount header)) [] ;;
       instances <- readInstances a header (Z.to_nat (InstanceCount header)) [] ;;
       ret {| fvar_baseTable := tag;
              Header := header;
              Axis := axes;
              Instances := instances;
              fvar_bytes := buf |})
      (NewBuffer buf).

(** The header a buffer starts with, when it holds one. *)
Definition readHeader (buf : list byte) : result FvarHeader :=
  run (binary_Read FvarHeader_type) (NewBuffer buf).

(** ** The properties in the words of the specification *)

(** The nine named weight buckets, for the classes 1 to 9. *)
Definition weightBuckets : list string :=
  ["Ultra-light"; "Extra-light"; "Light"; "Semi-light"; "Medium";
   "Semi-bold"; "Bold"; "Extra-bold"; "Ultra-bold"].

(** Reading a decimal string back: the inverse of [Itoa]. *)
Definition Atoi (s : string) : option Z :=
  option_map Z.of_int (NilZero.int_of_string s).

(** The style label by the priority order italic, bold, underscore,
    outlined, strikeout, negative over the selection bits. *)
Definition styleByPriority (fsSelection : Z) : string :=
  if Z.testbit fsSelection 0 then "italic"
  else if Z.testbit fsSelection 5 then "bold"
  else if Z.testbit fsSelection 1 then "underscore"
  else if Z.testbit fsSelection 3 then "outlined"
  else if Z.testbit fsSelection 4 then "strikeout"
  else if Z.testbit fsSelection 2 then "negative"
  else "normal".

Definition styleLabels : list string :=
  ["italic"; "bold"; "underscore"; "outlined"; "strikeout"; "negative";
   "normal"].

(** Bit [b] of the 128-bit bitmap: [(bitmap[b / 32] >> (b % 32)) & 1]. *)
Definition bitmapBit (bitmap : uint32x4) (b : Z) : bool :=
  match index4 bitmap (b / 32) with
  | Some word => Z.land (Z.shiftr word (b mod 32)) 1 =? 1
  | None => false
  end.

(** The sub-ranges of the entries whose bit is set, each prefixed with
    [U+], in the order of the catalog. *)
Definition coverage (catalog : list UnicodeSupport) (bitmap : uint32x4)
    : list string :=
  flat_map
    (fun entry =>
       if bitmapBit bitmap (BitIndex entry)
       then map (String.append "U+") (UnicodeRanges entry)
       else [])
    catalog.

(** The bit indexes a 128-bit bitmap has. *)
Definition inBitmap (entry : UnicodeSupport) : bool :=
  (0 <=? BitIndex entry) && (BitIndex entry <? 128).

(** The bitmap with bit 9 alone set. *)
Definition cyrillicOnly : uint32x4 :=
  {| word0 := 512; word1 := 0; word2 := 0; word3 := 0 |}.

(** The two instance-record sizes the header can declare: the fixed fields
    [NameID] and [Flags], one 4-byte coordinate per axis, and the optional
    2-byte PostScript [NameID]. *)
Definition sizeWithoutPSName (header : FvarHeader) : Z :=
  2 + 2 + AxisCount header * 4.

Definition sizeWithPSName (header : FvarHeader) : Z :=
  sizeWithoutPSName header + 2.

(** ** Sample tables *)

(** A 68-byte OS/2 fixed block: version 4, average width 550, weight class
    400, width class 5, selection flags 0x0040, characters 0x0020-0xFFFF. *)
Definition os2FixedBlock : list byte :=
  [x00; x04; x02; x26; x01; x90; x00; x05]
    ++ repeat x00 54
    ++ [x00; x40; x00; x20; xff; xff].

(** A 32-byte trailing block: ascender 1000, descender -200, line gap 0,
    Windows ascent 1000 and descent 200, code page bit 0, x-height 500,
    cap height 700, break character 0x20, maximum context 2. *)
Definition os2TrailingBlock : list byte :=
  [x03; xe8; xff; x38; x00; x00; x03; xe8; x00; xc8;
   x00; x00; x00; x01; x00; x00; x00; x00;
   x01; xf4; x02; xbc; x00; x00; x00; x20; x00; x02;
   x00; x00; x00; x00].

Definition os2Version4 : list byte := os2FixedBlock ++ os2TrailingBlock.

(** A 68-byte fixed block whose Unicode-range bitmap has bit 9 alone set
    (the bytes at offset 42 are the first word), all else zero. *)
Definition os2Cyrillic : list byte :=
  repeat x00 42 ++ [x00; x00; x02; x00] ++ repeat x00 22.

(** An fvar header: version 1.0, data at offset 16, the given counts and
    sizes (each below 256). *)
Definition fvarHeaderBytes (axisCount instanceCount instanceSize : byte)
    : list byte :=
  [x00; x01; x00; x00; x00; x10; x00; x02;
   x00; axisCount; x00; x14; x00; instanceCount; x00; instanceSize].

(** The weight axis: tag [wght], 100.0 to 900.0, default 400.0, name 256. *)
Definition wghtAxis : list byte :=
  [x77; x67; x68; x74;
   x00; x64; x00; x00; x01; x90; x00; x00; x03; x84; x00; x00;
   x00; x00; x01; x00].

(** One axis and no instance. *)
Definition fvarAxisOnly : list byte := fvarHeaderBytes x01 x00 x08 ++ wghtAxis.

(** One axis and one 8-byte instance: name 257, no flags, weight 700.0. *)
Definition fvarOneInstance : list byte :=
  fvarHeaderBytes x01 x01 x08 ++ wghtAxis
    ++ [x01; x01; x00; x00; x02; xbc; x00; x00].

(** One axis and one 10-byte instance, PostScript name 258. *)
Definition fvarOneInstancePS : list byte :=
  fvarHeaderBytes x01 x01 x0a ++ wghtAxis
    ++ [x01; x01; x00; x00; x02; xbc; x00; x00; x01; x02].

(** A header alone, declaring no axis, no instance and an instance size of
    one byte. *)
Definition fvarOddInstanceSize : list byte := fvarHeaderBytes x00 x00 x01.

(** ** Wire layouts by offset *)

(** The byte at offset [i] of a buffer, as a number. *)
Definition byteAt (buf : list byte) (i : nat) : Z :=
  Z.of_N (Byte.to_N (nth i buf x00)).

(** The 16-bit and 32-bit big-endian numbers at offset [p]. *)
Definition be16 (buf : list byte) (p : nat) : Z :=
  byteAt buf p * 256 + byteAt buf (1 + p).

Definition be32 (buf : list byte) (p : nat) : Z :=
  ((byteAt buf p * 256 + byteAt buf (1 + p)) * 256 + byteAt buf (2 + p)) * 256
  + byteAt buf (3 + p).

(** The structs as laid out from offset [p], every field at the sum of the
    widths of the fields before it. *)
Definition Panose_at (buf : list byte) (p : nat) : Panose :=
  {| BFamilyType := byteAt buf p;
     BSerifStyle := byteAt buf (1 + p);
     BWeight := byteAt buf (2 + p);
     BProportion := byteAt buf (3 + p);
     BContrast := byteAt buf (4 + p);
     BStrokeVariation := byteAt buf (5 + p);
     BArmStyle := byteAt buf (6 + p);
     BLetterform := byteAt buf (7 + p);
     BMidline := byteAt buf (8 + p);
     BXHeight := byteAt buf (9 + p) |}.

Definition TableOs2Original_at (buf : list byte) (p : nat) : TableOs2Original :=
  {| Version := be16 buf p;
     XAvgCharWidth := to_int16 (be16 buf (2 + p));
     USWeightClass := be16 buf (4 + p);
     USWidthClass := be16 buf (6 + p);
     FSType := to_int16 (be16 buf (8 + p));
     YSubscriptXSize := to_int16 (be16 buf (10 + p));
     YSubscriptYSize := to_int16 (be16 buf (12 + p));
     YSubscriptXOffset := to_int16 (be16 buf (14 + p));
     YSubscriptYOffset := to_int16 (be16 buf (16 + p));
     YSuperscriptXSize := to_int16 (be16 buf (18 + p));
     YSuperscriptYSize := to_int16 (be16 buf (20 + p));
     YSuperscriptXOffset := to_int16 (be16 buf (22 + p));
     YSuperscriptYOffset := to_int16 (be16 buf (24 + p));
     YStrikeoutSize := to_int16 (be16 buf (26 + p));
     YStrikeoutPosition := to_int16 (be16 buf (28 + p));
     SFamilyClass := to_int16 (be16 buf (30 + p));
     OS2Panose := Panose_at buf (32 + p);
     UlUnicodeRange := {| word0 := be32 buf (42 + p); word1 := be32 buf (46 + p);
                          word2 := be32 buf (50 + p); word3 := be32 buf (54 + p) |};
     AchVendID := be32 buf (58 + p);
     FsSelection := be16 buf (62 + p);
     FsFirstCharIndex := be16 buf (64 + p);
     FsLastCharIndex := be16 buf (66 + p) |}.

Definition FvarHeader_at (buf : list byte) (p : nat) : FvarHeader :=
  {| MajorVersion := be16 buf p;
     MinorVersion := be16 buf (2 + p);
     OffsetToData := be16 buf (4 + p);
     CountSizePairs := be16 buf (6 + p);
     AxisCount := be16 buf (8 + p);
     AxisSize := be16 buf (10 + p);
     InstanceCount := be16 buf (12 + p);
     InstanceSize := be16 buf (14 + p) |}.

Definition fixed_at (buf : list byte) (p : nat) : fixed :=
  {| Major := to_int16 (be16 buf p); Minor := be16 buf (2 + p) |}.

Definition VariationAxis_at (buf : list byte) (p : nat) : VariationAxis :=
  {| AxisTag := be32 buf p;
     MinValue := fixed_at buf (4 + p);
     DefaultValue := fixed_at buf (8 + p);
     MaxValue := fixed_at buf (12 + p);
     Axis_Flags := be16 buf (16 + p);
     Axis_NameID := be16 buf (18 + p) |}.

(** The axis records of a table: [count] records of 20 bytes from offset
    16. *)
Definition axesAt (buf : list byte) (count : nat) : list VariationAxis :=
  map (fun i => VariationAxis_at buf (16 + 20 * i)) (seq 0 count).

(** The ranges of the Go integer types. *)
Definition is_uint8 (z : Z) : Prop := 0 <= z < 2 ^ 8.
Definition is_uint16 (z : Z) : Prop := 0 <= z < 2 ^ 16.
Definition is_int16 (z : Z) : Prop := - 2 ^ 15 <= z < 2 ^ 15.
Definition is_uint32 (z : Z) : Prop := 0 <= z < 2 ^ 32.

(** Every field of the fixed OS/2 block within the range of its type. *)
Definition TableOs2Original_inRange (o : TableOs2Original) : Prop :=
  Forall is_uint16
    [Version o; USWeightClass o; USWidthClass o; FsSelection o;
     FsFirstCharIndex o; FsLastCharIndex o] /\
  Forall is_int16
    [XAvgCharWidth o; FSType o;
     YSubscriptXSize o; YSubscriptYSize o;
     YSubscriptXOffset o; YSubscriptYOffset o;
     YSuperscriptXSize o; YSuperscriptYSize o;
     YSuperscriptXOffset o; YSuperscriptYOffset o;
     YStrikeoutSize o; YStrikeoutPosition o; SFamilyClass o] /\
  Forall is_uint8
    [BFamilyType (OS2Panose o); BSerifStyle (OS2Panose o);
     BWeight (OS2Panose o); BProportion (OS2Panose o);
     BContrast (OS2Panose o); BStrokeVariation (OS2Panose o);
     BArmStyle (OS2Panose o); BLetterform (OS2Panose o);
     BMidline (OS2Panose o); BXHeight (OS2Panose o)] /\
  Forall is_uint32
    [word0 (UlUnicodeRange o); word1 (UlUnicodeRange o);
     word2 (UlUnicodeRange o); word3 (UlUnicodeRange o); AchVendID o].

(** An entry that names at least one sub-range. *)
Definition hasRanges (entry : UnicodeSupport) : bool :=
  match UnicodeRanges entry with
  | [] => false
  | _ :: _ => true
  end.

(** Every sub-range of a catalog, prefixed, in the order of the catalog. *)
Definition allRanges (catalog : list UnicodeSupport) : list string :=
  flat_map (fun entry => map (String.append "U+") (UnicodeRanges entry)) catalog.

(** The nine named width buckets, for the classes 1 to 9. *)
Definition widthBuckets : list string :=
  ["Ultra-condensed"; "Extra-condensed"; "Condensed"; "Semi-condensed";
   "Medium"; "Semi-expanded"; "Expanded"; "Extra-expanded"; "Ultra-expanded"].

(** * Properties *)

(** ** The reader *)

Lemma ReadFull_enough (n : nat) (r : Buffer) :
  (n <= List.length r)%nat ->
  ReadFull n r = (Ok (firstn n r), skipn n r).
Proof.
  intros Hlen. unfold ReadFull.
  destruct n as [|n]; [reflexivity|].
  destruct r as [|b r]; [simpl in Hlen; lia|].
  destruct (Nat.ltb_spec (List.length (b :: r)) (S n)) as [Hlt|_]; [lia|].
  reflexivity.
Qed.

Lemma ReadFull_short (n : nat) (r : Buffer) :
  (List.length r < n)%nat ->
  exists e, ReadFull n r = (Err e, []) /\ truncated e = true.
Proof.
  intros Hlen. unfold ReadFull.
  destruct n as [|n]; [lia|].
  destruct r as [|b r].
  - exists EOF. split; reflexivity.
  - destruct (Nat.ltb_spec (List.length (b :: r)) (S n)) as [_|Hge]; [|lia].
    exists ErrUnexpectedEOF. split; reflexivity.
Qed.

Section BinaryRead.
Context {A : Type} (ty : binaryType A).

Lemma binary_Read_enough (size : nat) (r : Buffer) :
  sizeof (type_kind ty) = Some size ->
  (size <= List.length r)%nat ->
  binary_Read ty r = (Ok (fst (type_value ty (firstn size r))), skipn size r).
Proof.
  intros Hsize Hlen. unfold binary_Read, bind, ret. rewrite Hsize.
  rewrite (ReadFull_enough size r Hlen). reflexivity.
Qed.

Lemma binary_Read_short (size : nat) (r : Buffer) :
  sizeof (type_kind ty) = Some size ->
  (List.length r < size)%nat ->
  exists e, binary_Read ty r = (Err e, []) /\ truncated e = true.
Proof.
  intros Hsize Hlen. unfold binary_Read, bind. rewrite Hsize.
  destruct (ReadFull_short size r Hlen) as (e & Hread & Htrunc).
  exists e. rewrite Hread. split; [reflexivity | exact Htrunc].
Qed.

Lemma binary_Read_invalid (r : Buffer) :
  sizeof (type_kind ty) = None ->
  binary_Read ty r = (Err (ErrInvalidType (type_name ty)), r).
Proof.
  intros Hsize. unfold binary_Read, fail. rewrite Hsize. reflexivity.
Qed.
End BinaryRead.

Lemma sizeof_TableOs2Original : sizeof TableOs2Original_kind = Some 68%nat.
Proof. reflexivity. Qed.

Lemma sizeof_TableOs2AdditionalFields :
  sizeof TableOs2AdditionalFields_kind = Some 32%nat.
Proof. reflexivity. Qed.

Lemma sizeof_FvarHeader : sizeof FvarHeader_kind = Some 16%nat.
Proof. reflexivity. Qed.

Lemma sizeof_VariationAxis : sizeof VariationAxis_kind = Some 20%nat.
Proof. reflexivity. Qed.

Lemma sizeof_Instance : sizeof Instance_kind = None.
Proof. reflexivity. Qed.

Lemma sizeof_InstanceWithoutPSName : sizeof InstanceWithoutPSName_kind = None.
Proof. reflexivity. Qed.

(** ** parseTableOS2 *)

Lemma parseTableOS2_enough (tag : Tag) (buf : list byte) :
  (68 <= List.length buf)%nat ->
  parseTableOS2 tag buf =
    Ok {| os2_baseTable := tag;
          original := fst (TableOs2Original_value (firstn 68 buf));
          additional := zeroAdditionalFields;
          os2_bytes := buf |}.
Proof.
  intros Hlen. unfold parseTableOS2, run, bind, NewBuffer.
  rewrite (binary_Read_enough TableOs2Original_type 68 buf
             sizeof_TableOs2Original Hlen).
  reflexivity.
Qed.

Lemma parseTableOS2_short (tag : Tag) (buf : list byte) :
  (List.length buf < 68)%nat ->
  exists e, parseTableOS2 tag buf = Err e /\ truncated e = true.
Proof.
  intros Hlen. unfold parseTableOS2, run, bind, NewBuffer.
  destruct (binary_Read_short TableOs2Original_type 68 buf
              sizeof_TableOs2Original Hlen) as (e & Hread & Htrunc).
  exists e. rewrite Hread. split; [reflexivity | exact Htrunc].
Qed.

Lemma parseTableOS2_additional (tag : Tag) (buf : list byte) (t : TableOS2) :
  parseTableOS2 tag buf = Ok t -> additional t = zeroAdditionalFields.
Proof.
  intros Hparse.
  destruct (Nat.le_gt_cases 68 (List.length buf)) as [Hlen|Hlen].
  - rewrite (parseTableOS2_enough tag buf Hlen) in Hparse.
    injection Hparse as <-. reflexivity.
  - destruct (parseTableOS2_short tag buf Hlen) as (e & Herr & _).
    rewrite Herr in Hparse. discriminate.
Qed.

Lemma zero_block_decodes_to_zero :
  fst (TableOs2AdditionalFields_value (repeat x00 32)) = zeroAdditionalFields.
Proof. reflexivity. Qed.

(** C5, as stated, fails in its last part: the table decoded from the
    68-byte buffer [os2Cyrillic] does not have its trailing fields absent; it
    holds all fourteen, each with the value 0, exactly as a trailing block of
    32 zero bytes denotes them. *)
Lemma parseTableOS2_68_bytes_trailing_fields_zero :
  List.length os2Cyrillic = 68%nat /\
  exists t, parseTableOS2 0 os2Cyrillic = Ok t /\
            additional t = fst (TableOs2AdditionalFields_value (repeat x00 32)) /\
            STypoAscender (additional t) = 0 /\
            UsUpperPointSize (additional t) = 0.
Proof.
  split; [reflexivity|].
  eexists. split; [apply parseTableOS2_enough; vm_compute; lia|].
  repeat split; reflexivity.
Qed.

(** C5, amended.  [parseTableOS2] fails with a truncation error ([io.EOF]
    or [io.ErrUnexpectedEOF]) exactly when the buffer is shorter than 68
    bytes; on a buffer of exactly 68 bytes it succeeds, and each of the
    fourteen optional trailing fields of the table holds the value 0. *)
Theorem parseTableOS2_truncated_iff_short (tag : Tag) (buf : list byte) :
  ((exists e, parseTableOS2 tag buf = Err e /\ truncated e = true)
   <-> (List.length buf < 68)%nat) /\
  (List.length buf = 68%nat ->
   exists t, parseTableOS2 tag buf = Ok t /\
             original t = fst (TableOs2Original_value buf) /\
             additional t = zeroAdditionalFields).
Proof.
  split; [split|].
  - intros (e & Herr & _).
    destruct (Nat.le_gt_cases 68 (List.length buf)) as [Hlen|Hlen]; [|exact Hlen].
    rewrite (parseTableOS2_enough tag buf Hlen) in Herr. discriminate.
  - apply parseTableOS2_short.
  - intros Hlen. eexists. split.
    + apply parseTableOS2_enough. lia.
    + cbn [original additional]. split; [|reflexivity].
      replace (firstn 68 buf) with buf; [reflexivity|].
      rewrite <- Hlen. symmetry. apply firstn_all.
Qed.

Lemma parseTableOS2_truncated_iff_short_witness :
  exists t, parseTableOS2 0 os2FixedBlock = Ok t /\
            original t = fst (TableOs2Original_value os2FixedBlock) /\
            additional t = zeroAdditionalFields.
Proof.
  exact (proj2 (parseTableOS2_truncated_iff_short 0 os2FixedBlock) eq_refl).
Defined.

(** C3.  On the 100-byte table [os2Version4], whose bytes after offset 68
    hold a complete trailing block with ascender 1000, [parseTableOS2]
    succeeds and leaves every trailing field at 0: the block is not
    decoded. *)
Theorem parseTableOS2_skips_trailing_block :
  List.length os2Version4 = 100%nat /\
  STypoAscender (fst (TableOs2AdditionalFields_value (skipn 68 os2Version4))) = 1000 /\
  STypoDescender (fst (TableOs2AdditionalFields_value (skipn 68 os2Version4))) = -200 /\
  exists t, parseTableOS2 0 os2Version4 = Ok t /\
            additional t = zeroAdditionalFields /\
            STypoAscender (additional t) = 0.
Proof.
  repeat split; try reflexivity.
  eexists. split; [apply parseTableOS2_enough; vm_compute; lia|].
  split; reflexivity.
Qed.

(** C4, as stated, fails: the table decoded from the 68-byte buffer
    [os2FixedBlock] holds, as its trailing fields, exactly the value a
    trailing block of 32 zero bytes denotes. *)
Lemma parseTableOS2_absent_block_reads_as_zero :
  List.length os2FixedBlock = 68%nat /\
  exists t, parseTableOS2 0 os2FixedBlock = Ok t /\
            additional t = fst (TableOs2AdditionalFields_value (repeat x00 32)) /\
            UsWinAscent (additional t) = 0.
Proof.
  split; [reflexivity|].
  eexists. split; [apply parseTableOS2_enough; vm_compute; lia|].
  split; reflexivity.
Qed.

(** C4, amended.  For every buffer of exactly 68 bytes, which holds the
    fixed block and no byte of the trailing block, [parseTableOS2] returns a
    table whose fourteen optional trailing fields each hold the value 0: the
    very value a trailing block of 32 zero bytes denotes. *)
Theorem parseTableOS2_absent_block_zero_filled (tag : Tag) (buf : list byte) :
  List.length buf = 68%nat ->
  exists t, parseTableOS2 tag buf = Ok t /\
            additional t = zeroAdditionalFields /\
            additional t = fst (TableOs2AdditionalFields_value (repeat x00 32)).
Proof.
  intros Hlen. eexists. split.
  - apply parseTableOS2_enough. rewrite Hlen. apply Nat.le_refl.
  - cbn [additional]. rewrite zero_block_decodes_to_zero.
    split; reflexivity.
Qed.

Lemma parseTableOS2_absent_block_zero_filled_witness :
  exists t, parseTableOS2 0 os2FixedBlock = Ok t /\
            additional t = zeroAdditionalFields.
Proof.
  destruct (parseTableOS2_absent_block_zero_filled 0 os2FixedBlock eq_refl)
    as (t & Hparse & Hzero & _).
  exists t. split; [exact Hparse | exact Hzero].
Defined.

(** ** Bit tests *)

(** Masking with a single bit keeps that bit alone. *)
Lemma land_pow2 (e w : Z) :
  0 <= e ->
  Z.land (2 ^ e) w = if Z.testbit w e then 2 ^ e else 0.
Proof.
  intros He. apply Z.bits_inj'. intros n Hn.
  rewrite Z.land_spec, Z.pow2_bits_eqb by exact He.
  destruct (Z.eqb_spec e n) as [->|Hne].
  - destruct (Z.testbit w n) eqn:Hbit.
    + rewrite Z.pow2_bits_true by exact Hn. reflexivity.
    + rewrite Z.bits_0. reflexivity.
  - destruct (Z.testbit w e).
    + rewrite Z.pow2_bits_false by congruence. reflexivity.
    + rewrite Z.bits_0. reflexivity.
Qed.

Lemma pow2_nonzero (e : Z) : 0 <= e -> 2 ^ e <> 0.
Proof. intros He. apply Z.pow_nonzero; lia. Qed.

(** The test [mask & w == mask] of the style predicates, for a one-bit
    mask. *)
Lemma land_pow2_eqb (e w : Z) :
  0 <= e ->
  (Z.land (2 ^ e) w =? 2 ^ e) = Z.testbit w e.
Proof.
  intros He. rewrite (land_pow2 e w He).
  destruct (Z.testbit w e).
  - apply Z.eqb_refl.
  - apply Z.eqb_neq. intros Heq. symmetry in Heq.
    exact (pow2_nonzero e He Heq).
Qed.

(** The test [mask & w != 0] of [isSupported], for a one-bit mask. *)
Lemma land_pow2_nonzero (e w : Z) :
  0 <= e ->
  negb (Z.land (2 ^ e) w =? 0) = Z.testbit w e.
Proof.
  intros He. rewrite (land_pow2 e w He).
  destruct (Z.testbit w e).
  - apply negb_true_iff, Z.eqb_neq, pow2_nonzero, He.
  - reflexivity.
Qed.

(** The test [(w >> e) & 1 = 1]. *)
Lemma shiftr_land_1 (e w : Z) :
  0 <= e ->
  (Z.land (Z.shiftr w e) 1 =? 1) = Z.testbit w e.
Proof.
  intros He.
  change 1 with (Z.ones 1) at 1. rewrite Z.land_ones by lia.
  change (2 ^ 1) with 2. rewrite <- Z.bit0_mod, Z.shiftr_spec by lia.
  rewrite Z.add_0_l. destruct (Z.testbit w e); reflexivity.
Qed.

(** ** FontStyle *)

Section Style.
Variable t : TableOS2.

Lemma IsItalic_bit : IsItalic t = Z.testbit (FsSelection (original t)) 0.
Proof. exact (land_pow2_eqb 0 _ ltac:(lia)). Qed.

Lemma IsUnderscore_bit : IsUnderscore t = Z.testbit (FsSelection (original t)) 1.
Proof. exact (land_pow2_eqb 1 _ ltac:(lia)). Qed.

Lemma IsNegative_bit : IsNegative t = Z.testbit (FsSelection (original t)) 2.
Proof. exact (land_pow2_eqb 2 _ ltac:(lia)). Qed.

Lemma IsOutlined_bit : IsOutlined t = Z.testbit (FsSelection (original t)) 3.
Proof. exact (land_pow2_eqb 3 _ ltac:(lia)). Qed.

Lemma IsStrikeout_bit : IsStrikeout t = Z.testbit (FsSelection (original t)) 4.
Proof. exact (land_pow2_eqb 4 _ ltac:(lia)). Qed.

Lemma IsBold_bit : IsBold t = Z.testbit (FsSelection (original t)) 5.
Proof. exact (land_pow2_eqb 5 _ ltac:(lia)). Qed.
End Style.

(** C7.  [FontStyle] returns the label the priority order italic, bold,
    underscore, outlined, strikeout, negative picks from the bits 0, 5, 1,
    3, 4, 2 of [FsSelection], and ["normal"] when none of the six is set; the
    result is one of the seven labels, whatever the other bits are. *)
Theorem FontStyle_by_priority (t : TableOS2) :
  FontStyle t = styleByPriority (FsSelection (original t)) /\
  In (FontStyle t) styleLabels.
Proof.
  assert (Hstyle : FontStyle t = styleByPriority (FsSelection (original t))).
  { unfold FontStyle, styleByPriority.
    rewrite IsItalic_bit, IsBold_bit, IsUnderscore_bit, IsOutlined_bit,
      IsStrikeout_bit, IsNegative_bit.
    reflexivity. }
  split; [exact Hstyle|].
  rewrite Hstyle. unfold styleByPriority, styleLabels.
  repeat match goal with
         | |- context [if ?b then _ else _] => destruct b
         end; simpl; auto 10.
Qed.

(** ** WeightClass *)

(** [Itoa] is the decimal numeral of its argument: reading it back gives
    the argument. *)
Lemma Atoi_Itoa (i : Z) : Atoi (Itoa i) = Some i.
Proof.
  unfold Atoi, Itoa. rewrite NilZero.isi.
  - simpl. rewrite DecimalZ.of_to. reflexivity.
  - destruct i as [|p|p]; simpl; try discriminate.
    unfold Pos.to_int. intros Heq. injection Heq as Heq.
    exact (DecimalPos.Unsigned.to_uint_nonnil p Heq).
  - destruct i as [|p|p]; simpl; try discriminate.
    intros Heq. injection Heq as Heq.
    exact (DecimalPos.Unsigned.to_uint_nonnil p Heq).
Qed.

Lemma WeightClass_bucket (t : TableOS2) :
  1 <= USWeightClass (original t) <= 9 ->
  WeightClass t = nth (Z.to_nat (USWeightClass (original t) - 1)) weightBuckets "".
Proof.
  intros Hrange. unfold WeightClass.
  assert (Hcases : USWeightClass (original t) = 1 \/ USWeightClass (original t) = 2 \/
                   USWeightClass (original t) = 3 \/ USWeightClass (original t) = 4 \/
                   USWeightClass (original t) = 5 \/ USWeightClass (original t) = 6 \/
                   USWeightClass (original t) = 7 \/ USWeightClass (original t) = 8 \/
                   USWeightClass (original t) = 9) by lia.
  repeat destruct Hcases as [Hcase|Hcases]; try rewrite Hcase; try rewrite Hcases;
    reflexivity.
Qed.

Lemma WeightClass_literal (t : TableOS2) :
  ~ 1 <= USWeightClass (original t) <= 9 ->
  WeightClass t = Itoa (USWeightClass (original t)).
Proof.
  intros Hrange. unfold WeightClass.
  destruct (USWeightClass (original t)) as [|p|p]; try reflexivity.
  destruct p as [[[[|[]|]|[[]|[]|]|]|[[[]|[]|]|[[]|[]|]|]|]
                |[[[|[]|]|[[]|[]|]|]|[[[]|[]|]|[[]|[]|]|]|]|];
    try reflexivity; exfalso; apply Hrange; lia.
Qed.

(** C8.  [WeightClass] returns the named bucket for the classes 1 to 9 and,
    for every other value, the decimal numeral of the value, which reads
    back as the value; 0, 400 and 1000 give ["0"], ["400"] and ["1000"]. *)
Theorem WeightClass_mapping (t : TableOS2) :
  WeightClass t =
    (if (1 <=? USWeightClass (original t)) && (USWeightClass (original t) <=? 9)
     then nth (Z.to_nat (USWeightClass (original t) - 1)) weightBuckets ""
     else Itoa (USWeightClass (original t))) /\
  Atoi (Itoa (USWeightClass (original t))) = Some (USWeightClass (original t)) /\
  (Itoa 0 = "0" /\ Itoa 400 = "400" /\ Itoa 1000 = "1000").
Proof.
  split; [|split; [apply Atoi_Itoa | repeat split]].
  destruct (Z.leb_spec 1 (USWeightClass (original t)));
    destruct (Z.leb_spec (USWeightClass (original t)) 9); simpl;
    (apply WeightClass_bucket; lia) || (apply WeightClass_literal; lia).
Qed.

(** ** UnicodeRanges *)

Lemma appendRanges_map (rs ranges : list string) :
  appendRanges ranges rs = ranges ++ map (String.append "U+") rs.
Proof.
  revert ranges. induction rs as [|r rs IH]; intros ranges; simpl.
  - symmetry. apply app_nil_r.
  - rewrite IH, <- app_assoc. reflexivity.
Qed.

Lemma index4_in_range (a : uint32x4) (b : Z) :
  0 <= b < 128 -> exists word, index4 a (b / 32) = Some word.
Proof.
  intros Hb.
  assert (Hq : 0 <= b / 32 < 4).
  { split; [apply Z.div_pos; lia | apply Z.div_lt_upper_bound; lia]. }
  assert (Hcases : b / 32 = 0 \/ b / 32 = 1 \/ b / 32 = 2 \/ b / 32 = 3) by lia.
  destruct Hcases as [Hq0|[Hq1|[Hq2|Hq3]]];
    [rewrite Hq0 | rewrite Hq1 | rewrite Hq2 | rewrite Hq3]; simpl; eauto.
Qed.

(** On a bit index of the bitmap, [isSupported] does not panic and tests
    the bit the specification names. *)
Lemma isSupported_bitmapBit (entry : UnicodeSupport) (mask : uint32x4) :
  inBitmap entry = true ->
  isSupported entry mask = Some (bitmapBit mask (BitIndex entry)).
Proof.
  unfold inBitmap. intros Hin.
  apply andb_true_iff in Hin. destruct Hin as [Hlo Hhi].
  apply Z.leb_le in Hlo. apply Z.ltb_lt in Hhi.
  unfold isSupported, bitmapBit.
  rewrite Z.quot_div_nonneg, Z.rem_mod_nonneg by lia.
  destruct (index4_in_range mask (BitIndex entry) (conj Hlo Hhi)) as [word Hword].
  rewrite Hword. f_equal.
  assert (Hmod : 0 <= BitIndex entry mod 32) by (apply Z.mod_pos_bound; lia).
  unfold exp2_uint32.
  destruct (Z.ltb_spec (BitIndex entry mod 32) 0) as [Hneg|_]; [lia|].
  rewrite land_pow2_nonzero, shiftr_land_1 by exact Hmod. reflexivity.
Qed.

Lemma rangesLoop_coverage (catalog : list UnicodeSupport) (mask : uint32x4)
    (ranges : list string) :
  forallb inBitmap catalog = true ->
  rangesLoop catalog mask ranges = Some (ranges ++ coverage catalog mask).
Proof.
  revert ranges. induction catalog as [|entry rest IH]; intros ranges Hall.
  - simpl. rewrite app_nil_r. reflexivity.
  - simpl in Hall. apply andb_true_iff in Hall. destruct Hall as [Hentry Hrest].
    cbn [rangesLoop]. rewrite (isSupported_bitmapBit entry mask Hentry).
    unfold coverage. cbn [flat_map]. fold (coverage rest mask).
    destruct (bitmapBit mask (BitIndex entry)).
    + rewrite (IH _ Hrest), appendRanges_map, <- app_assoc. reflexivity.
    + rewrite (IH _ Hrest). reflexivity.
Qed.

Lemma UnicodeRangesOver_coverage (catalog : list UnicodeSupport) (t : TableOS2) :
  forallb inBitmap catalog = true ->
  UnicodeRangesOver catalog t =
    Some (coverage catalog (UlUnicodeRange (original t))).
Proof.
  intros Hall. unfold UnicodeRangesOver.
  rewrite (rangesLoop_coverage catalog _ [] Hall). reflexivity.
Qed.

Lemma SupportedUnicodeRanges_inBitmap :
  forallb inBitmap SupportedUnicodeRanges = true.
Proof. vm_compute. reflexivity. Qed.

Lemma SupportedUnicodeRanges_full_inBitmap :
  forallb inBitmap SupportedUnicodeRanges_full = true.
Proof. vm_compute. reflexivity. Qed.

(** C6.  [UnicodeRanges] returns, in the order of the catalog, the
    sub-ranges, each prefixed with [U+], of exactly the entries whose bit
    [b] has [(bitmap[b / 32] >> (b % 32)) & 1 = 1]; with bit 9 alone set it
    returns the four Cyrillic sub-ranges and nothing else.  Both hold for
    the catalog of [table_os2.go] and for that of its longer revision. *)
Theorem UnicodeRanges_coverage (t : TableOS2) :
  (TableOS2_UnicodeRanges t =
     Some (coverage SupportedUnicodeRanges (UlUnicodeRange (original t))) /\
   TableOS2_UnicodeRanges_full t =
     Some (coverage SupportedUnicodeRanges_full (UlUnicodeRange (original t)))) /\
  (UlUnicodeRange (original t) = cyrillicOnly ->
   TableOS2_UnicodeRanges t =
     Some ["U+0400-04FF"; "U+0500-052F"; "U+2DE0-2DFF"; "U+A640-A69F"] /\
   TableOS2_UnicodeRanges_full t =
     Some ["U+0400-04FF"; "U+0500-052F"; "U+2DE0-2DFF"; "U+A640-A69F"]).
Proof.
  assert (Hshort := UnicodeRangesOver_coverage SupportedUnicodeRanges t
                      SupportedUnicodeRanges_inBitmap).
  assert (Hfull := UnicodeRangesOver_coverage SupportedUnicodeRanges_full t
                     SupportedUnicodeRanges_full_inBitmap).
  unfold TableOS2_UnicodeRanges, TableOS2_UnicodeRanges_full.
  split; [split; assumption|].
  intros Hmask. rewrite Hshort, Hfull, Hmask.
  split; vm_compute; reflexivity.
Qed.

Lemma UnicodeRanges_coverage_witness :
  exists t, parseTableOS2 0 os2Cyrillic = Ok t /\
            TableOS2_UnicodeRanges t =
              Some ["U+0400-04FF"; "U+0500-052F"; "U+2DE0-2DFF"; "U+A640-A69F"].
Proof.
  eexists. split; [reflexivity|].
  refine (proj1 (proj2 (UnicodeRanges_coverage _) _)).
  reflexivity.
Defined.

(** ** parseTableFvar *)

Lemma readHeader_enough (buf : list byte) :
  (16 <= List.length buf)%nat ->
  binary_Read FvarHeader_type buf =
    (Ok (fst (FvarHeader_value (firstn 16 buf))), skipn 16 buf).
Proof.
  intros Hlen.
  exact (binary_Read_enough FvarHeader_type 16 buf sizeof_FvarHeader Hlen).
Qed.

(** A header that decodes leaves the bytes after offset 16 to the loops. *)
Lemma readHeader_Ok (buf : list byte) (h : FvarHeader) :
  readHeader buf = Ok h ->
  (16 <= List.length buf)%nat /\
  binary_Read FvarHeader_type buf = (Ok h, skipn 16 buf).
Proof.
  unfold readHeader, run, NewBuffer. intros Hread.
  destruct (Nat.le_gt_cases 16 (List.length buf)) as [Hlen|Hlen].
  - split; [exact Hlen|].
    rewrite (readHeader_enough buf Hlen) in *. simpl in Hread.
    injection Hread as <-. reflexivity.
  - destruct (binary_Read_short FvarHeader_type 16 buf sizeof_FvarHeader Hlen)
      as (e & Herr & _).
    rewrite Herr in Hread. discriminate.
Qed.

(** The axis loop succeeds on a buffer that holds the records still to
    read, 20 bytes each, and appends one axis per record. *)
Lemma readAxes_enough (count : nat) (axes : list VariationAxis) (r : Buffer) :
  (20 * count <= List.length r)%nat ->
  exists more,
    readAxes count axes r = (Ok (axes ++ more), skipn (20 * count) r) /\
    List.length more = count.
Proof.
  revert axes r. induction count as [|count IH]; intros axes r Hlen.
  - exists []. rewrite app_nil_r. split; reflexivity.
  - cbn [readAxes]. unfold bind at 1.
    rewrite (binary_Read_enough VariationAxis_type 20 r sizeof_VariationAxis)
      by lia.
    match goal with
    | |- context [readAxes count (axes ++ [?x]) _] => set (axis := x)
    end.
    destruct (IH (axes ++ [axis]) (skipn 20 r)) as (more & Hloop & Hmore).
    { rewrite length_skipn. lia. }
    exists (axis :: more). rewrite Hloop, <- app_assoc, skipn_skipn.
    split; [|simpl; rewrite Hmore; reflexivity].
    do 2 f_equal. lia.
Qed.

(** The first iteration of the instance loop fails, on either branch,
    before it reads a byte. *)
Lemma readInstances_invalid (a : arch) (header : FvarHeader) (count : nat)
    (instances : list Instance) (r : Buffer) :
  (1 <= count)%nat ->
  readInstances a header count instances r =
    (Err (ErrInvalidType (if withoutPSName a header
                          then "*sfnt.InstanceWithoutPSName"
                          else "*sfnt.Instance")), r).
Proof.
  intros Hcount. destruct count as [|count]; [lia|].
  cbn [readInstances]. destruct (withoutPSName a header); unfold bind.
  - rewrite (binary_Read_invalid InstanceWithoutPSName_type r
               sizeof_InstanceWithoutPSName). reflexivity.
  - rewrite (binary_Read_invalid Instance_type r sizeof_Instance). reflexivity.
Qed.

(** The shape test compares [InstanceSize] with a constant of the target:
    four times the size of an [int]. *)
Lemma withoutPSName_constant (a : arch) (header : FvarHeader) :
  withoutPSName a header = (InstanceSize header =? 4 * Sizeof_BasicKind a).
Proof. destruct a; reflexivity. Qed.

(** What [parseTableFvar] returns once the header is decoded. *)
Lemma parseTableFvar_after_header (a : arch) (tag : Tag) (buf : list byte)
    (h : FvarHeader) :
  readHeader buf = Ok h ->
  parseTableFvar a tag buf =
    run (axes <- readAxes (Z.to_nat (AxisCount h)) [] ;;
         instances <- readInstances a h (Z.to_nat (InstanceCount h)) [] ;;
         ret {| fvar_baseTable := tag; Header := h; Axis := axes;
                Instances := instances; fvar_bytes := buf |})
        (skipn 16 buf).
Proof.
  intros Hread. destruct (readHeader_Ok buf h Hread) as [_ Hheader].
  unfold parseTableFvar, run, NewBuffer. unfold bind at 1.
  rewrite Hheader. reflexivity.
Qed.

Lemma parseTableFvar_header_Ok (a : arch) (tag : Tag) (buf : list byte)
    (t : TableFvar) :
  parseTableFvar a tag buf = Ok t -> exists h, readHeader buf = Ok h.
Proof.
  unfold parseTableFvar, readHeader, run, NewBuffer. unfold bind at 1.
  destruct (binary_Read FvarHeader_type buf) as [[h|e] r]; simpl.
  - intros _. exists h. reflexivity.
  - discriminate.
Qed.

Lemma parseTableFvar_Ok (a : arch) (tag : Tag) (buf : list byte) (t : TableFvar) :
  parseTableFvar a tag buf = Ok t ->
  fvar_baseTable t = tag /\ readHeader buf = Ok (Header t) /\ fvar_bytes t = buf.
Proof.
  intros Hparse.
  destruct (parseTableFvar_header_Ok a tag buf t Hparse) as [h Hread].
  rewrite (parseTableFvar_after_header a tag buf h Hread) in Hparse.
  unfold run, bind, ret in Hparse.
  destruct (readAxes _ _ _) as [[axes|e] r1]; [|discriminate].
  destruct (readInstances _ _ _ _ _) as [[instances|e] r2]; [|discriminate].
  simpl in Hparse. injection Hparse as <-. simpl. auto.
Qed.

Lemma parseTableFvar_no_instance (a : arch) (tag : Tag) (buf : list byte)
    (h : FvarHeader) :
  readHeader buf = Ok h ->
  InstanceCount h = 0 ->
  (16 + 20 * Z.to_nat (AxisCount h) <= List.length buf)%nat ->
  exists axes,
    parseTableFvar a tag buf =
      Ok {| fvar_baseTable := tag; Header := h; Axis := axes;
            Instances := []; fvar_bytes := buf |} /\
    List.length axes = Z.to_nat (AxisCount h).
Proof.
  intros Hread Hcount Hlen.
  rewrite (parseTableFvar_after_header a tag buf h Hread).
  destruct (readAxes_enough (Z.to_nat (AxisCount h)) [] (skipn 16 buf))
    as (axes & Hloop & Haxes).
  { rewrite length_skipn. lia. }
  exists axes. split; [|exact Haxes].
  unfold run, bind. rewrite Hloop, Hcount. reflexivity.
Qed.

(** A table that is returned has no instance. *)
Lemma parseTableFvar_Ok_Instances (a : arch) (tag : Tag) (buf : list byte)
    (t : TableFvar) :
  parseTableFvar a tag buf = Ok t -> Instances t = [].
Proof.
  intros Hparse.
  destruct (parseTableFvar_header_Ok a tag buf t Hparse) as [h Hread].
  rewrite (parseTableFvar_after_header a tag buf h Hread) in Hparse.
  unfold run, bind in Hparse.
  destruct (readAxes _ _ _) as [[axes|e] r1]; [|discriminate].
  destruct (Z.to_nat (InstanceCount h)) as [|count] eqn:Hcount.
  - simpl in Hparse. injection Hparse as <-. reflexivity.
  - rewrite (readInstances_invalid a h (S count) [] r1) in Hparse by lia.
    discriminate.
Qed.

Lemma parseTableFvar_some_instance (a : arch) (tag : Tag) (buf : list byte)
    (h : FvarHeader) :
  readHeader buf = Ok h ->
  1 <= InstanceCount h ->
  exists e, parseTableFvar a tag buf = Err e.
Proof.
  intros Hread Hcount.
  rewrite (parseTableFvar_after_header a tag buf h Hread).
  unfold run, bind.
  destruct (readAxes _ _ _) as [[axes|e] r1]; [|exists e; reflexivity].
  rewrite (readInstances_invalid a h _ [] r1) by lia.
  eexists. reflexivity.
Qed.

(** C1.  On [fvarOneInstance], whose header declares one axis and one
    instance of [2 + 2 + AxisCount * 4 = 8] bytes, the shape test picks the
    record with the PostScript name, and [parseTableFvar] returns the error
    of [binary.Read] on [*sfnt.Instance] and no table; on
    [fvarOneInstancePS], whose instance size is 2 bytes more, it returns
    the same error.  No instance is decoded, with or without the name. *)
Theorem parseTableFvar_shape_on_one_instance :
  (exists h, readHeader fvarOneInstance = Ok h /\
             AxisCount h = 1 /\ InstanceCount h = 1 /\
             InstanceSize h = sizeWithoutPSName h /\
             withoutPSName Arch64 h = false /\
             withoutPSName Arch32 h = false) /\
  parseTableFvar Arch64 0 fvarOneInstance = Err (ErrInvalidType "*sfnt.Instance") /\
  parseTableFvar Arch32 0 fvarOneInstance = Err (ErrInvalidType "*sfnt.Instance") /\
  (exists h, readHeader fvarOneInstancePS = Ok h /\
             AxisCount h = 1 /\ InstanceCount h = 1 /\
             InstanceSize h = sizeWithPSName h) /\
  parseTableFvar Arch64 0 fvarOneInstancePS = Err (ErrInvalidType "*sfnt.Instance") /\
  parseTableFvar Arch32 0 fvarOneInstancePS = Err (ErrInvalidType "*sfnt.Instance").
Proof.
  split; [eexists; split; [reflexivity | repeat split]|].
  split; [reflexivity|]. split; [reflexivity|].
  split; [eexists; split; [reflexivity | repeat split]|].
  split; reflexivity.
Qed.

(** C2, as stated, fails: the header [fvarOddInstanceSize] declares an
    instance size of 1, neither 4 nor 6, and [parseTableFvar] returns a
    table. *)
Lemma parseTableFvar_accepts_odd_instance_size :
  exists h, readHeader fvarOddInstanceSize = Ok h /\
            InstanceSize h = 1 /\
            sizeWithoutPSName h = 4 /\ sizeWithPSName h = 6 /\
            (exists t, parseTableFvar Arch64 0 fvarOddInstanceSize = Ok t) /\
            (exists t, parseTableFvar Arch32 0 fvarOddInstanceSize = Ok t).
Proof.
  eexists. split; [reflexivity|].
  repeat split; eexists; reflexivity.
Qed.

(** C2, amended.  [parseTableFvar] does not check [InstanceSize]: for every
    buffer whose header declares no instance and which holds the 16-byte
    header and [AxisCount] axis records of 20 bytes, it returns a table, with
    that header, one axis per record and no instance, whatever instance size
    the header declares. *)
Theorem parseTableFvar_instance_size_unchecked
    (a : arch) (tag : Tag) (buf : list byte) (h : FvarHeader) :
  readHeader buf = Ok h ->
  InstanceCount h = 0 ->
  (16 + 20 * Z.to_nat (AxisCount h) <= List.length buf)%nat ->
  exists t, parseTableFvar a tag buf = Ok t /\
            Header t = h /\
            List.length (Axis t) = Z.to_nat (AxisCount h) /\
            Instances t = [].
Proof.
  intros Hread Hcount Hlen.
  destruct (parseTableFvar_no_instance a tag buf h Hread Hcount Hlen)
    as (axes & Hparse & Haxes).
  eexists. split; [exact Hparse|]. simpl. auto.
Qed.

Lemma parseTableFvar_instance_size_unchecked_witness :
  exists t, parseTableFvar Arch64 0 fvarOddInstanceSize = Ok t /\
            InstanceSize (Header t) = 1 /\
            List.length (Axis t) = 0%nat /\
            Instances t = [].
Proof.
  destruct (parseTableFvar_instance_size_unchecked Arch64 0 fvarOddInstanceSize
              (fst (FvarHeader_value fvarOddInstanceSize)))
    as (t & Hparse & Hheader & Haxes & Hinstances).
  - reflexivity.
  - reflexivity.
  - vm_compute. lia.
  - exists t. rewrite Hheader. repeat split; assumption.
Defined.

(** C9.  A table decoded from a buffer returns that buffer from [Bytes],
    for the OS/2 decoder and for the fvar decoder. *)
Theorem Bytes_verbatim (a : arch) (tag : Tag) (buf : list byte) :
  (forall t, parseTableOS2 tag buf = Ok t -> OS2_Bytes t = buf) /\
  (forall t, parseTableFvar a tag buf = Ok t -> Fvar_Bytes t = buf).
Proof.
  split; intros t Hparse.
  - destruct (Nat.le_gt_cases 68 (List.length buf)) as [Hlen|Hlen].
    + rewrite (parseTableOS2_enough tag buf Hlen) in Hparse.
      injection Hparse as <-. reflexivity.
    + destruct (parseTableOS2_short tag buf Hlen) as (e & Herr & _).
      rewrite Herr in Hparse. discriminate.
  - exact (proj2 (proj2 (parseTableFvar_Ok a tag buf t Hparse))).
Qed.

Lemma Bytes_verbatim_witness :
  (exists t, parseTableOS2 0 os2Version4 = Ok t /\ OS2_Bytes t = os2Version4) /\
  (exists t, parseTableFvar Arch64 0 fvarAxisOnly = Ok t /\
             Fvar_Bytes t = fvarAxisOnly).
Proof.
  split; eexists; (split; [reflexivity|]).
  - apply (proj1 (Bytes_verbatim Arch64 0 os2Version4)). reflexivity.
  - apply (proj2 (Bytes_verbatim Arch64 0 fvarAxisOnly)). reflexivity.
Defined.

(** C10.  Neither instance record type has a size [binary.Read] accepts,
    and once the header decodes with [InstanceCount >= 1], [parseTableFvar]
    returns an error and never a table. *)
Theorem parseTableFvar_rejects_instances
    (a : arch) (tag : Tag) (buf : list byte) (h : FvarHeader) :
  readHeader buf = Ok h ->
  1 <= InstanceCount h ->
  (sizeof Instance_kind = None /\ sizeof InstanceWithoutPSName_kind = None) /\
  (exists e, parseTableFvar a tag buf = Err e) /\
  (forall t, parseTableFvar a tag buf <> Ok t).
Proof.
  intros Hread Hcount.
  split; [split; reflexivity|].
  destruct (parseTableFvar_some_instance a tag buf h Hread Hcount) as [e Herr].
  split; [exists e; exact Herr|].
  intros t Hparse. rewrite Herr in Hparse. discriminate.
Qed.

Lemma parseTableFvar_rejects_instances_witness :
  exists e, parseTableFvar Arch64 0 fvarOneInstance = Err e.
Proof.
  refine (proj1 (proj2 (parseTableFvar_rejects_instances Arch64 0 fvarOneInstance
                          (fst (FvarHeader_value fvarOneInstance)) _ _))).
  - reflexivity.
  - vm_compute. discriminate.
Defined.

(** * Further properties *)

(** ** Big-endian reads at an offset *)

Lemma byteAt_range (buf : list byte) (i : nat) : 0 <= byteAt buf i < 256.
Proof.
  unfold byteAt. pose proof (Byte.to_N_bounded (nth i buf x00)) as Hb. lia.
Qed.

(** Shifting in a byte: the low 8 bits of the shifted value are clear. *)
Lemma lor_shiftl_8 (x y : Z) :
  0 <= y < 256 -> Z.lor (Z.shiftl x 8) y = x * 256 + y.
Proof.
  intros Hy.
  assert (Hland : Z.land (Z.shiftl x 8) y = 0).
  { apply Z.bits_inj'. intros n Hn. rewrite Z.land_spec, Z.bits_0.
    destruct (Z.lt_ge_cases n 8) as [Hlow|Hhigh].
    - rewrite Z.shiftl_spec_low by exact Hlow. reflexivity.
    - destruct (Z.eq_dec y 0) as [->|Hy0].
      + rewrite Z.bits_0. apply andb_false_r.
      + rewrite (Z.bits_above_log2 y n), andb_false_r; [reflexivity | lia |].
        apply Z.lt_le_trans with 8; [|exact Hhigh].
        apply Z.log2_lt_pow2; [lia | change (2 ^ 8) with 256; lia]. }
  rewrite <- (Z.lxor_lor _ _ Hland), <- (Z.add_nocarry_lxor _ _ Hland).
  rewrite Z.shiftl_mul_pow2 by lia. reflexivity.
Qed.

Lemma skipn_nth_cons (l : list byte) (p : nat) :
  (p < List.length l)%nat -> skipn p l = nth p l x00 :: skipn (S p) l.
Proof.
  revert p. induction l as [|b l IH]; intros p Hp; [simpl in Hp; lia|].
  destruct p as [|p]; [reflexivity|].
  simpl in Hp. cbn [skipn nth]. apply IH. lia.
Qed.

Lemma bigEndian_step (n : nat) (acc : Z) (l : list byte) (p : nat) :
  (p < List.length l)%nat ->
  bigEndian (S n) acc (skipn p l) =
    bigEndian n (acc * 256 + byteAt l p) (skipn (S p) l).
Proof.
  intros Hp. rewrite (skipn_nth_cons l p Hp). cbn [bigEndian].
  rewrite lor_shiftl_8; [reflexivity|]. apply byteAt_range.
Qed.

Section ReadAt.
Variable l : list byte.
Variable p : nat.

Lemma uint8_at :
  (1 + p <= List.length l)%nat ->
  uint8 (skipn p l) = (byteAt l p, skipn (1 + p) l).
Proof.
  intros Hlen. unfold uint8. rewrite bigEndian_step by lia. reflexivity.
Qed.

Lemma uint16_at :
  (2 + p <= List.length l)%nat ->
  uint16 (skipn p l) = (be16 l p, skipn (2 + p) l).
Proof.
  intros Hlen. unfold uint16. rewrite !bigEndian_step by lia. reflexivity.
Qed.

Lemma int16_at :
  (2 + p <= List.length l)%nat ->
  int16 (skipn p l) = (to_int16 (be16 l p), skipn (2 + p) l).
Proof.
  intros Hlen. unfold int16, dbind, dret. rewrite uint16_at by exact Hlen.
  reflexivity.
Qed.

Lemma uint32_at :
  (4 + p <= List.length l)%nat ->
  uint32 (skipn p l) = (be32 l p, skipn (4 + p) l).
Proof.
  intros Hlen. unfold uint32. rewrite !bigEndian_step by lia. reflexivity.
Qed.
End ReadAt.

(** One field read at a known offset, and the cursor moved past it. *)
Ltac read_field :=
  first [ rewrite uint32_at by (cbn [Nat.add]; lia)
        | rewrite int16_at by (cbn [Nat.add]; lia)
        | rewrite uint16_at by (cbn [Nat.add]; lia)
        | rewrite uint8_at by (cbn [Nat.add]; lia) ];
  cbn [Nat.add]; cbv beta iota zeta.

(** ** The structs, field by field *)

Section StructAt.
Variable l : list byte.
Variable p : nat.

Lemma fixed_value_at :
  (4 + p <= List.length l)%nat ->
  fixed_value (skipn p l) = (fixed_at l p, skipn (4 + p) l).
Proof.
  intros Hlen. unfold fixed_value, fixed_at, dbind, dret.
  repeat read_field. reflexivity.
Qed.

Lemma Panose_value_at :
  (10 + p <= List.length l)%nat ->
  Panose_value (skipn p l) = (Panose_at l p, skipn (10 + p) l).
Proof.
  intros Hlen. unfold Panose_value, Panose_at, dbind, dret.
  repeat read_field. reflexivity.
Qed.

Lemma uint32x4_value_at :
  (16 + p <= List.length l)%nat ->
  uint32x4_value (skipn p l) =
    ({| word0 := be32 l p; word1 := be32 l (4 + p);
        word2 := be32 l (8 + p); word3 := be32 l (12 + p) |},
     skipn (16 + p) l).
Proof.
  intros Hlen. unfold uint32x4_value, dbind, dret.
  repeat read_field. reflexivity.
Qed.

Lemma FvarHeader_value_at :
  (16 + p <= List.length l)%nat ->
  FvarHeader_value (skipn p l) = (FvarHeader_at l p, skipn (16 + p) l).
Proof.
  intros Hlen. unfold FvarHeader_value, FvarHeader_at, dbind, dret.
  repeat read_field. reflexivity.
Qed.
End StructAt.

Lemma VariationAxis_value_at (l : list byte) (p : nat) :
  (20 + p <= List.length l)%nat ->
  VariationAxis_value (skipn p l) = (VariationAxis_at l p, skipn (20 + p) l).
Proof.
  intros Hlen.
  unfold VariationAxis_value, VariationAxis_at, NameID_value, dbind, dret.
  read_field.
  do 3 (rewrite fixed_value_at by (cbn [Nat.add]; lia);
        cbn [Nat.add]; cbv beta iota zeta).
  repeat read_field. reflexivity.
Qed.

Lemma TableOs2Original_value_at (l : list byte) (p : nat) :
  (68 + p <= List.length l)%nat ->
  TableOs2Original_value (skipn p l) =
    (TableOs2Original_at l p, skipn (68 + p) l).
Proof.
  intros Hlen.
  unfold TableOs2Original_value, TableOs2Original_at, Tag_value, dbind, dret.
  do 16 read_field.
  rewrite Panose_value_at by (cbn [Nat.add]; lia).
  cbn [Nat.add]; cbv beta iota zeta.
  rewrite uint32x4_value_at by (cbn [Nat.add]; lia).
  cbn [Nat.add]; cbv beta iota zeta.
  repeat read_field. reflexivity.
Qed.

(** ** Reads through a window of the buffer *)

Lemma byteAt_firstn (n : nat) (buf : list byte) (i : nat) :
  (i < n)%nat -> byteAt (firstn n buf) i = byteAt buf i.
Proof.
  intros Hi. unfold byteAt. rewrite nth_firstn.
  destruct (Nat.ltb_spec i n) as [_|Hge]; [reflexivity | lia].
Qed.

Lemma byteAt_skipn (p : nat) (buf : list byte) (i : nat) :
  byteAt (skipn p buf) i = byteAt buf (i + p).
Proof.
  unfold byteAt. rewrite nth_skipn. do 3 f_equal. lia.
Qed.

Lemma be16_firstn (n : nat) (buf : list byte) (q : nat) :
  (2 + q <= n)%nat -> be16 (firstn n buf) q = be16 buf q.
Proof.
  intros Hq. unfold be16. rewrite !byteAt_firstn by lia. reflexivity.
Qed.

Lemma be32_firstn (n : nat) (buf : list byte) (q : nat) :
  (4 + q <= n)%nat -> be32 (firstn n buf) q = be32 buf q.
Proof.
  intros Hq. unfold be32. rewrite !byteAt_firstn by lia. reflexivity.
Qed.

Lemma be16_skipn (p : nat) (buf : list byte) (q : nat) :
  be16 (skipn p buf) q = be16 buf (q + p).
Proof.
  unfold be16. rewrite !byteAt_skipn. reflexivity.
Qed.

Lemma be32_skipn (p : nat) (buf : list byte) (q : nat) :
  be32 (skipn p buf) q = be32 buf (q + p).
Proof.
  unfold be32. rewrite !byteAt_skipn. reflexivity.
Qed.

Lemma be16_range (buf : list byte) (p : nat) : is_uint16 (be16 buf p).
Proof.
  unfold is_uint16, be16. change (2 ^ 16) with 65536.
  pose proof (byteAt_range buf p). pose proof (byteAt_range buf (1 + p)). lia.
Qed.

Lemma be32_range (buf : list byte) (p : nat) : is_uint32 (be32 buf p).
Proof.
  unfold is_uint32, be32. change (2 ^ 32) with 4294967296.
  pose proof (byteAt_range buf p). pose proof (byteAt_range buf (1 + p)).
  pose proof (byteAt_range buf (2 + p)). pose proof (byteAt_range buf (3 + p)).
  lia.
Qed.

Lemma to_int16_range (x : Z) : is_uint16 x -> is_int16 (to_int16 x).
Proof.
  unfold is_uint16, is_int16, to_int16.
  change (2 ^ 16) with 65536. change (2 ^ 15) with 32768.
  intros Hx. destruct (Z.ltb_spec x 32768); lia.
Qed.

(** ** parseTableOS2: layout, ranges and error kinds *)

Lemma TableOs2Original_value_firstn (buf : list byte) :
  (68 <= List.length buf)%nat ->
  fst (TableOs2Original_value (firstn 68 buf)) = TableOs2Original_at buf 0.
Proof.
  intros Hlen.
  change (firstn 68 buf) with (skipn 0 (firstn 68 buf)).
  rewrite TableOs2Original_value_at by (rewrite length_firstn; lia).
  cbn [fst]. unfold TableOs2Original_at, Panose_at. cbn [Nat.add].
  rewrite !be16_firstn, !be32_firstn, !byteAt_firstn by lia.
  reflexivity.
Qed.

Lemma parseTableOS2_Ok (tag : Tag) (buf : list byte) (t : TableOS2) :
  parseTableOS2 tag buf = Ok t ->
  (68 <= List.length buf)%nat /\
  t = {| os2_baseTable := tag;
         original := TableOs2Original_at buf 0;
         additional := zeroAdditionalFields;
         os2_bytes := buf |}.
Proof.
  intros Hparse.
  destruct (Nat.le_gt_cases 68 (List.length buf)) as [Hlen|Hlen].
  - rewrite (parseTableOS2_enough tag buf Hlen) in Hparse.
    rewrite (TableOs2Original_value_firstn buf Hlen) in Hparse.
    split; [exact Hlen | congruence].
  - destruct (parseTableOS2_short tag buf Hlen) as (e & Herr & _).
    rewrite Herr in Hparse. discriminate.
Qed.

(** X1.  A decoded OS/2 table holds every field of the fixed block as the
    big-endian number at the field's offset in the buffer, the offsets
    running on without padding from [Version] at 0 to [FsLastCharIndex] at
    66, and records the tag it was parsed as. *)
Theorem parseTableOS2_layout (tag : Tag) (buf : list byte) (t : TableOS2) :
  parseTableOS2 tag buf = Ok t ->
  original t = TableOs2Original_at buf 0 /\ os2_baseTable t = tag.
Proof.
  intros Hparse.
  destruct (parseTableOS2_Ok tag buf t Hparse) as [_ ->].
  split; reflexivity.
Qed.

Lemma parseTableOS2_layout_witness :
  exists t, parseTableOS2 0 os2Version4 = Ok t /\
            USWeightClass (original t) = 400 /\
            FsSelection (original t) = 64 /\
            FsLastCharIndex (original t) = 65535.
Proof.
  eexists. split; [reflexivity|].
  rewrite (proj1 (parseTableOS2_layout 0 os2Version4 _ eq_refl)).
  repeat split; reflexivity.
Defined.

Lemma TableOs2Original_at_inRange (buf : list byte) (p : nat) :
  TableOs2Original_inRange (TableOs2Original_at buf p).
Proof.
  unfold TableOs2Original_inRange, TableOs2Original_at, Panose_at.
  cbn -[Nat.add is_uint8 is_uint16 is_int16 is_uint32].
  repeat split;
    repeat (apply Forall_cons || apply Forall_nil);
    try apply to_int16_range; try apply be16_range; try apply be32_range;
    apply byteAt_range.
Qed.

(** X2.  Every field of a decoded OS/2 table lies in the range of its Go
    type: the unsigned 16-bit fields in 0..65535, the signed ones in
    -32768..32767, the PANOSE bytes in 0..255, and the four Unicode-range
    words and the vendor tag in 0..2^32-1. *)
Theorem parseTableOS2_inRange (tag : Tag) (buf : list byte) (t : TableOS2) :
  parseTableOS2 tag buf = Ok t -> TableOs2Original_inRange (original t).
Proof.
  intros Hparse.
  destruct (parseTableOS2_Ok tag buf t Hparse) as [_ ->].
  apply TableOs2Original_at_inRange.
Qed.

Lemma parseTableOS2_inRange_witness :
  exists t, parseTableOS2 0 os2Version4 = Ok t /\
            TableOs2Original_inRange (original t).
Proof.
  eexists. split; [reflexivity|].
  apply (parseTableOS2_inRange 0 os2Version4). reflexivity.
Defined.

(** The two ways [ReadFull] runs short. *)
Lemma ReadFull_empty (n : nat) :
  (0 < n)%nat -> ReadFull n [] = (Err EOF, []).
Proof. intros Hn. destruct n as [|n]; [lia | reflexivity]. Qed.

Lemma ReadFull_partial (n : nat) (r : Buffer) :
  (0 < List.length r < n)%nat -> ReadFull n r = (Err ErrUnexpectedEOF, []).
Proof.
  intros [Hpos Hlt]. unfold ReadFull.
  destruct n as [|n]; [lia|].
  destruct r as [|b r]; [simpl in Hpos; lia|].
  destruct (Nat.ltb_spec (List.length (b :: r)) (S n)) as [_|Hge]; [|lia].
  reflexivity.
Qed.

(** The error of a read that runs short: [io.EOF] on an empty buffer,
    [io.ErrUnexpectedEOF] on one that holds part of the value. *)
Lemma binary_Read_short_error {A : Type} (ty : binaryType A) (size : nat)
    (r : Buffer) :
  sizeof (type_kind ty) = Some size ->
  (List.length r < size)%nat ->
  binary_Read ty r =
    (Err (if (List.length r =? 0)%nat then EOF else ErrUnexpectedEOF), []).
Proof.
  intros Hsize Hlen. unfold binary_Read, bind. rewrite Hsize.
  destruct (Nat.eqb_spec (List.length r) 0) as [Hzero|Hpos].
  - apply length_zero_iff_nil in Hzero. subst r.
    rewrite ReadFull_empty by (simpl in Hlen; lia). reflexivity.
  - rewrite ReadFull_partial by lia. reflexivity.
Qed.

(** X3.  The error of [parseTableOS2] is [io.EOF] exactly on the empty
    buffer and [io.ErrUnexpectedEOF] exactly on a buffer of 1 to 67 bytes;
    it is never the invalid-type error of [binary.Read]. *)
Theorem parseTableOS2_error_kind (tag : Tag) (buf : list byte) :
  (parseTableOS2 tag buf = Err EOF <-> buf = []) /\
  (parseTableOS2 tag buf = Err ErrUnexpectedEOF
   <-> (0 < List.length buf < 68)%nat) /\
  (forall name, parseTableOS2 tag buf <> Err (ErrInvalidType name)).
Proof.
  destruct (Nat.le_gt_cases 68 (List.length buf)) as [Hlen|Hlen].
  - rewrite (parseTableOS2_enough tag buf Hlen).
    repeat split; try discriminate; try lia.
    intros ->. simpl in Hlen. lia.
  - assert (Herr : parseTableOS2 tag buf =
                     Err (if (List.length buf =? 0)%nat
                          then EOF else ErrUnexpectedEOF)).
    { unfold parseTableOS2, run, bind, NewBuffer.
      rewrite (binary_Read_short_error TableOs2Original_type 68 buf
                 sizeof_TableOs2Original Hlen). reflexivity. }
    rewrite Herr.
    destruct (Nat.eqb_spec (List.length buf) 0) as [Hzero|Hpos].
    + apply length_zero_iff_nil in Hzero. subst buf.
      repeat split; try discriminate; simpl; lia.
    + repeat split; try discriminate; try lia.
      intros ->. simpl in Hpos. lia.
Qed.

(** ** The classification accessors *)

(** X4.  [WidthClass] returns the named bucket for the classes 1 to 9 and
    ["Unknown"] for every other value, 0 and negative numbers included. *)
Theorem WidthClass_mapping (t : TableOS2) :
  WidthClass t =
    (if (1 <=? USWidthClass (original t)) && (USWidthClass (original t) <=? 9)
     then nth (Z.to_nat (USWidthClass (original t) - 1)) widthBuckets ""
     else "Unknown").
Proof.
  unfold WidthClass.
  destruct (Z.leb_spec 1 (USWidthClass (original t))) as [Hlo|Hlo];
    destruct (Z.leb_spec (USWidthClass (original t)) 9) as [Hhi|Hhi]; simpl.
  - assert (Hcases : USWidthClass (original t) = 1 \/ USWidthClass (original t) = 2 \/
                     USWidthClass (original t) = 3 \/ USWidthClass (original t) = 4 \/
                     USWidthClass (original t) = 5 \/ USWidthClass (original t) = 6 \/
                     USWidthClass (original t) = 7 \/ USWidthClass (original t) = 8 \/
                     USWidthClass (original t) = 9) by lia.
    repeat destruct Hcases as [Hcase|Hcases];
      try rewrite Hcase; try rewrite Hcases; reflexivity.
  - destruct (USWidthClass (original t)) as [|w|w]; try lia.
    destruct w as [[[[|[]|]|[[]|[]|]|]|[[[]|[]|]|[[]|[]|]|]|]
                  |[[[|[]|]|[[]|[]|]|]|[[[]|[]|]|[[]|[]|]|]|]|];
      try reflexivity; lia.
  - destruct (USWidthClass (original t)) as [|w|w]; try reflexivity; lia.
  - lia.
Qed.

(** X5.  Each style predicate tests one bit of [FsSelection] and no other:
    [IsItalic] bit 0, [IsUnderscore] bit 1, [IsNegative] bit 2, [IsOutlined]
    bit 3, [IsStrikeout] bit 4, [IsBold] bit 5. *)
Theorem style_predicates_test_one_bit (t : TableOS2) :
  IsItalic t = Z.testbit (FsSelection (original t)) 0 /\
  IsUnderscore t = Z.testbit (FsSelection (original t)) 1 /\
  IsNegative t = Z.testbit (FsSelection (original t)) 2 /\
  IsOutlined t = Z.testbit (FsSelection (original t)) 3 /\
  IsStrikeout t = Z.testbit (FsSelection (original t)) 4 /\
  IsBold t = Z.testbit (FsSelection (original t)) 5.
Proof.
  repeat split.
  - apply IsItalic_bit.
  - apply IsUnderscore_bit.
  - apply IsNegative_bit.
  - apply IsOutlined_bit.
  - apply IsStrikeout_bit.
  - apply IsBold_bit.
Qed.

(** The low six bits are clear exactly when the mask 63 finds nothing. *)
Lemma low_six_bits_clear (w : Z) :
  Z.land w 63 = 0 <->
  Z.testbit w 0 = false /\ Z.testbit w 1 = false /\ Z.testbit w 2 = false /\
  Z.testbit w 3 = false /\ Z.testbit w 4 = false /\ Z.testbit w 5 = false.
Proof.
  change 63 with (Z.ones 6). split.
  - intros Hland.
    assert (Hbit : forall n, 0 <= n < 6 -> Z.testbit w n = false).
    { intros n Hn.
      rewrite <- (andb_true_r (Z.testbit w n)).
      rewrite <- (Z.ones_spec_low 6 n Hn), <- Z.land_spec, Hland.
      apply Z.bits_0. }
    repeat split; apply Hbit; lia.
  - intros (H0 & H1 & H2 & H3 & H4 & H5).
    apply Z.bits_inj'. intros n Hn. rewrite Z.land_spec, Z.bits_0.
    destruct (Z.lt_ge_cases n 6) as [Hlow|Hhigh].
    + assert (Hcases : n = 0 \/ n = 1 \/ n = 2 \/ n = 3 \/ n = 4 \/ n = 5) by lia.
      destruct Hcases as [->|[->|[->|[->|[->| ->]]]]];
        [rewrite H0 | rewrite H1 | rewrite H2 | rewrite H3 | rewrite H4
        | rewrite H5]; reflexivity.
    + rewrite Z.ones_spec_high by lia. apply andb_false_r.
Qed.

(** X6.  The label of [FontStyle] tells which predicate holds and that every
    predicate of higher priority fails: ["bold"] is returned exactly for a
    bold font that is not italic, and so on down to ["normal"], returned
    exactly when the six low bits of [FsSelection] are clear. *)
Theorem FontStyle_label_iff (t : TableOS2) :
  (FontStyle t = "italic" <-> IsItalic t = true) /\
  (FontStyle t = "bold" <-> IsItalic t = false /\ IsBold t = true) /\
  (FontStyle t = "underscore"
   <-> IsItalic t = false /\ IsBold t = false /\ IsUnderscore t = true) /\
  (FontStyle t = "outlined"
   <-> IsItalic t = false /\ IsBold t = false /\ IsUnderscore t = false /\
       IsOutlined t = true) /\
  (FontStyle t = "strikeout"
   <-> IsItalic t = false /\ IsBold t = false /\ IsUnderscore t = false /\
       IsOutlined t = false /\ IsStrikeout t = true) /\
  (FontStyle t = "negative"
   <-> IsItalic t = false /\ IsBold t = false /\ IsUnderscore t = false /\
       IsOutlined t = false /\ IsStrikeout t = false /\ IsNegative t = true) /\
  (FontStyle t = "normal" <-> Z.land (FsSelection (original t)) 63 = 0).
Proof.
  rewrite low_six_bits_clear.
  rewrite <- IsItalic_bit, <- IsUnderscore_bit, <- IsNegative_bit,
    <- IsOutlined_bit, <- IsStrikeout_bit, <- IsBold_bit.
  unfold FontStyle.
  destruct (IsItalic t), (IsBold t), (IsUnderscore t), (IsOutlined t),
    (IsStrikeout t), (IsNegative t);
    repeat split; intros; try discriminate;
    repeat match goal with
           | H : _ /\ _ |- _ => destruct H
           end; try discriminate; reflexivity.
Qed.

(** ** Unicode coverage: bounds, empty result, duplicates *)

Lemma index4_None_iff (a : uint32x4) (i : Z) :
  index4 a i = None <-> i < 0 \/ 3 < i.
Proof.
  destruct i as [|i|i].
  - simpl. split; [discriminate | lia].
  - destruct i as [[i|i|]|[i|i|]|]; simpl; split;
      try discriminate; try reflexivity; lia.
  - simpl. split; [lia | reflexivity].
Qed.

(** [isSupported] panics, indexing the four-word bitmap out of range,
    exactly on a bit index of 128 or more, or of -32 or less. *)
Lemma isSupported_None_iff (entry : UnicodeSupport) (mask : uint32x4) :
  isSupported entry mask = None
  <-> BitIndex entry <= -32 \/ 128 <= BitIndex entry.
Proof.
  unfold isSupported.
  pose proof (Z.quot_rem' (BitIndex entry) 32) as Hqr.
  assert (Hrem : -32 < Z.rem (BitIndex entry) 32 < 32).
  { destruct (Z.le_gt_cases 0 (BitIndex entry)) as [Hpos|Hneg].
    - pose proof (Z.rem_bound_pos_pos (BitIndex entry) 32 ltac:(lia) Hpos). lia.
    - pose proof (Z.rem_bound_pos_neg (BitIndex entry) 32 ltac:(lia) ltac:(lia)).
      lia. }
  assert (Hsign : 0 <= BitIndex entry -> 0 <= Z.rem (BitIndex entry) 32).
  { intros Hpos. apply Z.rem_bound_pos_pos; lia. }
  assert (Hsign' : BitIndex entry <= 0 -> Z.rem (BitIndex entry) 32 <= 0).
  { intros Hneg. apply Z.rem_bound_pos_neg; lia. }
  destruct (index4 mask (Z.quot (BitIndex entry) 32)) as [word|] eqn:Hindex.
  - split; [discriminate|]. intros Hout. exfalso.
    assert (Hin : ~ (Z.quot (BitIndex entry) 32 < 0 \/ 3 < Z.quot (BitIndex entry) 32)).
    { intros Hnone. apply index4_None_iff with (a := mask) in Hnone. congruence. }
    lia.
  - split; [|reflexivity]. intros _.
    apply index4_None_iff in Hindex. lia.
Qed.

Lemma rangesLoop_None_iff (catalog : list UnicodeSupport) (mask : uint32x4)
    (ranges : list string) :
  rangesLoop catalog mask ranges = None
  <-> exists entry, In entry catalog /\ isSupported entry mask = None.
Proof.
  revert ranges. induction catalog as [|entry rest IH]; intros ranges.
  - simpl. split; [discriminate | intros (e & [] & _)].
  - cbn [rangesLoop]. destruct (isSupported entry mask) as [[|]|] eqn:Hentry.
    + rewrite IH. split.
      * intros (e & Hin & He). exists e. split; [right; exact Hin | exact He].
      * intros (e & [<-|Hin] & He); [congruence | exists e; auto].
    + rewrite IH. split.
      * intros (e & Hin & He). exists e. split; [right; exact Hin | exact He].
      * intros (e & [<-|Hin] & He); [congruence | exists e; auto].
    + split; [|reflexivity]. intros _. exists entry. split; [left; reflexivity|].
      exact Hentry.
Qed.

(** X7.  [isSupported] panics, indexing the four-word bitmap out of range,
    exactly on a bit index of 128 or more, or of -32 or less; and over any
    catalog [UnicodeRanges] panics exactly when the catalog holds such an
    entry, whatever the bitmap. *)
Theorem UnicodeRanges_panics_iff (catalog : list UnicodeSupport)
    (t : TableOS2) :
  (forall entry mask,
     isSupported entry mask = None
     <-> BitIndex entry <= -32 \/ 128 <= BitIndex entry) /\
  (UnicodeRangesOver catalog t = None
   <-> exists entry, In entry catalog /\
                     (BitIndex entry <= -32 \/ 128 <= BitIndex entry)).
Proof.
  split; [exact isSupported_None_iff|].
  unfold UnicodeRangesOver. rewrite rangesLoop_None_iff.
  split; intros (entry & Hin & Hentry); exists entry; (split; [exact Hin|]);
    apply (isSupported_None_iff entry (UlUnicodeRange (original t)));
    exact Hentry.
Qed.

Lemma coverage_nil_iff (catalog : list UnicodeSupport) (mask : uint32x4) :
  forallb hasRanges catalog = true ->
  coverage catalog mask = []
  <-> forall entry, In entry catalog -> bitmapBit mask (BitIndex entry) = false.
Proof.
  induction catalog as [|entry rest IH]; intros Hall.
  - simpl. split; [intros _ e [] | reflexivity].
  - simpl in Hall. apply andb_true_iff in Hall. destruct Hall as [Hentry Hrest].
    unfold coverage. cbn [flat_map]. fold (coverage rest mask).
    destruct (bitmapBit mask (BitIndex entry)) eqn:Hbit.
    + unfold hasRanges in Hentry.
      destruct (UnicodeRanges entry) as [|r rs]; [discriminate|].
      split; [discriminate|]. intros Hnone.
      rewrite (Hnone entry (or_introl eq_refl)) in Hbit. discriminate.
    + cbn [app]. rewrite (IH Hrest). split.
      * intros Hnone e [<-|Hin]; [exact Hbit | exact (Hnone e Hin)].
      * intros Hnone e Hin. apply Hnone. right. exact Hin.
Qed.

(** X8.  [UnicodeRanges] returns the empty list exactly when the bitmap has
    the bit of no catalog entry set, for the catalog of [table_os2.go] and
    for that of its longer revision: every entry names a sub-range. *)
Theorem UnicodeRanges_empty_iff (t : TableOS2) :
  (TableOS2_UnicodeRanges t = Some []
   <-> forall entry, In entry SupportedUnicodeRanges ->
                     bitmapBit (UlUnicodeRange (original t)) (BitIndex entry) = false) /\
  (TableOS2_UnicodeRanges_full t = Some []
   <-> forall entry, In entry SupportedUnicodeRanges_full ->
                     bitmapBit (UlUnicodeRange (original t)) (BitIndex entry) = false).
Proof.
  unfold TableOS2_UnicodeRanges, TableOS2_UnicodeRanges_full.
  rewrite (UnicodeRangesOver_coverage SupportedUnicodeRanges t
             SupportedUnicodeRanges_inBitmap).
  rewrite (UnicodeRangesOver_coverage SupportedUnicodeRanges_full t
             SupportedUnicodeRanges_full_inBitmap).
  rewrite <- (coverage_nil_iff SupportedUnicodeRanges) by (vm_compute; reflexivity).
  rewrite <- (coverage_nil_iff SupportedUnicodeRanges_full)
    by (vm_compute; reflexivity).
  split; split; intros Heq; congruence.
Qed.

Lemma NoDup_app_disjoint (l1 l2 : list string) (a : string) :
  NoDup (l1 ++ l2) -> In a l1 -> ~ In a l2.
Proof.
  induction l1 as [|x l1 IH]; intros Hnodup Hin; [destruct Hin|].
  cbn [app] in Hnodup. inversion Hnodup as [|? ? Hnotin Hnodup']; subst.
  destruct Hin as [->|Hin].
  - intros Hin2. apply Hnotin, in_or_app. right. exact Hin2.
  - apply IH; assumption.
Qed.

(** The coverage of a bitmap is drawn from the catalog's sub-ranges, and
    repeats none that the catalog does not repeat. *)
Lemma coverage_NoDup (catalog : list UnicodeSupport) (mask : uint32x4) :
  NoDup (allRanges catalog) ->
  NoDup (coverage catalog mask) /\ incl (coverage catalog mask) (allRanges catalog).
Proof.
  induction catalog as [|entry rest IH]; intros Hnodup.
  - split; [constructor | intros s []].
  - unfold allRanges in Hnodup. cbn [flat_map] in Hnodup. fold (allRanges rest) in Hnodup.
    destruct (IH (NoDup_app_remove_l _ _ Hnodup)) as [IHnodup IHincl].
    unfold coverage, allRanges. cbn [flat_map].
    fold (coverage rest mask). fold (allRanges rest).
    destruct (bitmapBit mask (BitIndex entry)).
    + split.
      * apply NoDup_app; [exact (NoDup_app_remove_r _ _ Hnodup) | exact IHnodup |].
        intros s Hin Hin'.
        exact (NoDup_app_disjoint _ _ s Hnodup Hin (IHincl s Hin')).
      * apply incl_app; [apply incl_appl, incl_refl | apply incl_appr, IHincl].
    + split; [exact IHnodup | apply incl_appr, IHincl].
Qed.

Lemma allRanges_NoDup (catalog : list UnicodeSupport) :
  nodup string_dec (allRanges catalog) = allRanges catalog ->
  NoDup (allRanges catalog).
Proof. intros <-. apply NoDup_nodup. Qed.

(** X9.  [UnicodeRanges] never returns the same range twice, whatever the
    bitmap: no sub-range occurs twice in the catalog of [table_os2.go] or in
    that of its longer revision. *)
Theorem UnicodeRanges_NoDup (t : TableOS2) :
  (exists ranges, TableOS2_UnicodeRanges t = Some ranges /\ NoDup ranges) /\
  (exists ranges, TableOS2_UnicodeRanges_full t = Some ranges /\ NoDup ranges).
Proof.
  unfold TableOS2_UnicodeRanges, TableOS2_UnicodeRanges_full.
  rewrite (UnicodeRangesOver_coverage SupportedUnicodeRanges t
             SupportedUnicodeRanges_inBitmap).
  rewrite (UnicodeRangesOver_coverage SupportedUnicodeRanges_full t
             SupportedUnicodeRanges_full_inBitmap).
  split; eexists; (split; [reflexivity|]);
    apply coverage_NoDup, allRanges_NoDup; vm_compute; reflexivity.
Qed.

(** ** parseTableFvar: layout and outcomes *)

Lemma FvarHeader_value_firstn (buf : list byte) :
  (16 <= List.length buf)%nat ->
  fst (FvarHeader_value (firstn 16 buf)) = FvarHeader_at buf 0.
Proof.
  intros Hlen.
  change (firstn 16 buf) with (skipn 0 (firstn 16 buf)).
  rewrite FvarHeader_value_at by (rewrite length_firstn; lia).
  cbn [fst]. unfold FvarHeader_at. cbn [Nat.add].
  rewrite !be16_firstn by lia. reflexivity.
Qed.

Lemma VariationAxis_value_window (buf : list byte) (p : nat) :
  (20 + p <= List.length buf)%nat ->
  fst (VariationAxis_value (firstn 20 (skipn p buf))) = VariationAxis_at buf p.
Proof.
  intros Hlen.
  change (firstn 20 (skipn p buf)) with (skipn 0 (firstn 20 (skipn p buf))).
  rewrite VariationAxis_value_at
    by (rewrite length_firstn, length_skipn; lia).
  cbn [fst]. unfold VariationAxis_at, fixed_at. cbn [Nat.add].
  rewrite !be16_firstn, !be32_firstn by lia.
  rewrite !be16_skipn, !be32_skipn. cbn [Nat.add]. reflexivity.
Qed.

Lemma readHeader_at (buf : list byte) :
  (16 <= List.length buf)%nat ->
  binary_Read FvarHeader_type buf = (Ok (FvarHeader_at buf 0), skipn 16 buf).
Proof.
  intros Hlen. rewrite (readHeader_enough buf Hlen).
  cbn [type_value FvarHeader_type].
  rewrite (FvarHeader_value_firstn buf Hlen). reflexivity.
Qed.

(** The axis loop on a buffer that holds the records still to read: one
    axis per record, the [i]-th from the bytes 20 [i] on. *)
Lemma readAxes_at (buf : list byte) (count p : nat) (axes : list VariationAxis) :
  (p + 20 * count <= List.length buf)%nat ->
  readAxes count axes (skipn p buf) =
    (Ok (axes ++ map (fun i => VariationAxis_at buf (p + 20 * i)) (seq 0 count)),
     skipn (p + 20 * count) buf).
Proof.
  revert p axes. induction count as [|count IH]; intros p axes Hlen.
  - cbn [readAxes seq map]. rewrite app_nil_r.
    replace (p + 20 * 0)%nat with p by lia. reflexivity.
  - cbn [readAxes]. unfold bind at 1.
    rewrite (binary_Read_enough VariationAxis_type 20 (skipn p buf)
               sizeof_VariationAxis) by (rewrite length_skipn; lia).
    cbn [type_value VariationAxis_type].
    rewrite (VariationAxis_value_window buf p) by lia.
    rewrite skipn_skipn.
    replace (skipn (20 + p) buf) with (skipn (p + 20) buf) by (f_equal; lia).
    rewrite (IH (p + 20)%nat) by lia.
    rewrite <- app_assoc. cbn [seq map app].
    replace (p + 20 * 0)%nat with p by lia.
    rewrite <- seq_shift, map_map.
    f_equal; [|f_equal; lia].
    do 3 f_equal. apply map_ext. intros i. f_equal. lia.
Qed.

(** The axis loop on a buffer that ends before the last record does: the
    error is [io.EOF] when the buffer ends between two records and
    [io.ErrUnexpectedEOF] when it ends inside one. *)
Lemma readAxes_short_error (count : nat) (axes : list VariationAxis)
    (r : Buffer) :
  (List.length r < 20 * count)%nat ->
  readAxes count axes r =
    (Err (if (List.length r mod 20 =? 0)%nat then EOF else ErrUnexpectedEOF), []).
Proof.
  revert axes r. induction count as [|count IH]; intros axes r Hlen; [lia|].
  cbn [readAxes]. unfold bind at 1.
  destruct (Nat.le_gt_cases 20 (List.length r)) as [Hfull|Hpart].
  - rewrite (binary_Read_enough VariationAxis_type 20 r sizeof_VariationAxis Hfull).
    rewrite IH by (rewrite length_skipn; lia).
    rewrite length_skipn.
    replace (List.length r) with ((List.length r - 20) + 1 * 20)%nat at 2 by lia.
    rewrite Nat.Div0.mod_add. reflexivity.
  - rewrite (binary_Read_short_error VariationAxis_type 20 r
               sizeof_VariationAxis Hpart).
    rewrite (Nat.mod_small _ _ Hpart). reflexivity.
Qed.

(** The three ways [parseTableFvar] goes on after a header that fits. *)
Lemma parseTableFvar_cases (a : arch) (tag : Tag) (buf : list byte) :
  (16 <= List.length buf)%nat ->
  parseTableFvar a tag buf =
    if (List.length buf <? 16 + 20 * Z.to_nat (AxisCount (FvarHeader_at buf 0)))%nat
    then Err (if ((List.length buf - 16) mod 20 =? 0)%nat
              then EOF else ErrUnexpectedEOF)
    else if InstanceCount (FvarHeader_at buf 0) =? 0
    then Ok {| fvar_baseTable := tag;
               Header := FvarHeader_at buf 0;
               Axis := axesAt buf (Z.to_nat (AxisCount (FvarHeader_at buf 0)));
               Instances := [];
               fvar_bytes := buf |}
    else Err (ErrInvalidType
                (if InstanceSize (FvarHeader_at buf 0) =? 4 * Sizeof_BasicKind a
                 then "*sfnt.InstanceWithoutPSName" else "*sfnt.Instance")).
Proof.
  intros Hlen.
  assert (Hread : readHeader buf = Ok (FvarHeader_at buf 0)).
  { unfold readHeader, run, NewBuffer. rewrite (readHeader_at buf Hlen).
    reflexivity. }
  rewrite (parseTableFvar_after_header a tag buf _ Hread).
  set (h := FvarHeader_at buf 0).
  unfold run, bind.
  destruct (Nat.ltb_spec (List.length buf) (16 + 20 * Z.to_nat (AxisCount h)))
    as [Hshort|Hfull].
  - rewrite readAxes_short_error by (rewrite length_skipn; lia).
    rewrite length_skipn. reflexivity.
  - rewrite (readAxes_at buf (Z.to_nat (AxisCount h)) 16 []) by lia.
    cbn [app]. fold (axesAt buf (Z.to_nat (AxisCount h))).
    assert (Hcount : 0 <= InstanceCount h) by apply be16_range.
    destruct (Z.eqb_spec (InstanceCount h) 0) as [Hzero|Hpos].
    + rewrite Hzero. reflexivity.
    + rewrite (readInstances_invalid a h (Z.to_nat (InstanceCount h)) [])
        by lia.
      rewrite withoutPSName_constant. reflexivity.
Qed.

Lemma parseTableFvar_header_short (a : arch) (tag : Tag) (buf : list byte) :
  (List.length buf < 16)%nat ->
  parseTableFvar a tag buf =
    Err (if (List.length buf =? 0)%nat then EOF else ErrUnexpectedEOF).
Proof.
  intros Hlen. unfold parseTableFvar, run, NewBuffer. unfold bind at 1.
  rewrite (binary_Read_short_error FvarHeader_type 16 buf sizeof_FvarHeader Hlen).
  reflexivity.
Qed.

Lemma parseTableFvar_outcome (a : arch) (tag : Tag) (buf : list byte) :
  parseTableFvar a tag buf =
    if (List.length buf <? 16)%nat
    then Err (if (List.length buf =? 0)%nat then EOF else ErrUnexpectedEOF)
    else if (List.length buf <? 16 + 20 * Z.to_nat (be16 buf 8))%nat
    then Err (if ((List.length buf - 16) mod 20 =? 0)%nat
              then EOF else ErrUnexpectedEOF)
    else if be16 buf 12 =? 0
    then Ok {| fvar_baseTable := tag;
               Header := FvarHeader_at buf 0;
               Axis := axesAt buf (Z.to_nat (be16 buf 8));
               Instances := [];
               fvar_bytes := buf |}
    else Err (ErrInvalidType
                (if be16 buf 14 =? 4 * Sizeof_BasicKind a
                 then "*sfnt.InstanceWithoutPSName" else "*sfnt.Instance")).
Proof.
  destruct (Nat.ltb_spec (List.length buf) 16) as [Hshort|Hlen].
  - apply parseTableFvar_header_short, Hshort.
  - exact (parseTableFvar_cases a tag buf Hlen).
Qed.

(** X10.  A decoded fvar table holds the eight header fields as the 16-bit
    big-endian numbers at the offsets 0 to 14, one axis per 20-byte record
    from offset 16 on (tag, three 16.16 values, flags and name, in that
    order), [AxisCount] of them whatever [OffsetToData] and [AxisSize]
    declare, no instance, the tag it was parsed as and the buffer. *)
Theorem parseTableFvar_layout (a : arch) (tag : Tag) (buf : list byte)
    (t : TableFvar) :
  parseTableFvar a tag buf = Ok t ->
  t = {| fvar_baseTable := tag;
         Header := FvarHeader_at buf 0;
         Axis := axesAt buf (Z.to_nat (be16 buf 8));
         Instances := [];
         fvar_bytes := buf |}.
Proof.
  rewrite parseTableFvar_outcome.
  destruct (List.length buf <? 16)%nat; [discriminate|].
  destruct (List.length buf <? 16 + 20 * Z.to_nat (be16 buf 8))%nat;
    [discriminate|].
  destruct (be16 buf 12 =? 0); [|discriminate].
  intros Hparse. injection Hparse as <-. reflexivity.
Qed.

Lemma parseTableFvar_layout_witness :
  exists t, parseTableFvar Arch64 0 fvarAxisOnly = Ok t /\
            List.length (Axis t) = 1%nat /\
            AxisTag (nth 0 (Axis t) (VariationAxis_at [] 0)) = 0x77676874 /\
            Major (DefaultValue (nth 0 (Axis t) (VariationAxis_at [] 0))) = 400.
Proof.
  eexists. split; [reflexivity|].
  rewrite (parseTableFvar_layout Arch64 0 fvarAxisOnly _ eq_refl).
  repeat split; reflexivity.
Defined.

(** X11.  [parseTableFvar] returns a table exactly when the buffer holds
    the 16-byte header and the [AxisCount] axis records of 20 bytes the
    header declares at offset 8, and the instance count at offset 12 is 0;
    bytes beyond the last axis record are not looked at. *)
Theorem parseTableFvar_succeeds_iff (a : arch) (tag : Tag) (buf : list byte) :
  (exists t, parseTableFvar a tag buf = Ok t)
  <-> (16 + 20 * Z.to_nat (be16 buf 8) <= List.length buf)%nat /\
      be16 buf 12 = 0.
Proof.
  rewrite parseTableFvar_outcome.
  destruct (Nat.ltb_spec (List.length buf) 16) as [Hshort|Hlen].
  - split; [intros [t Ht]; discriminate | lia].
  - destruct (Nat.ltb_spec (List.length buf) (16 + 20 * Z.to_nat (be16 buf 8)))
      as [Haxes|Haxes].
    + split; [intros [t Ht]; discriminate | lia].
    + destruct (Z.eqb_spec (be16 buf 12) 0) as [Hzero|Hpos].
      * split; [intros _; split; assumption | intros _; eexists; reflexivity].
      * split; [intros [t Ht]; discriminate | intros [_ Hzero]; contradiction].
Qed.

(** X12.  On a buffer that ends before the header or the declared axis
    records do, [parseTableFvar] fails, whatever instance count the header
    declares: with [io.EOF] when the buffer is empty or ends after the header
    between two axis records, with [io.ErrUnexpectedEOF] when it ends inside
    the header or inside an axis record. *)
Theorem parseTableFvar_truncated (a : arch) (tag : Tag) (buf : list byte) :
  (List.length buf < 16 + 20 * Z.to_nat (be16 buf 8))%nat ->
  parseTableFvar a tag buf =
    Err (if ((List.length buf =? 0)
             || ((16 <=? List.length buf)
                 && ((List.length buf - 16) mod 20 =? 0)))%nat
         then EOF else ErrUnexpectedEOF).
Proof.
  intros Hshort. rewrite parseTableFvar_outcome.
  destruct (Nat.ltb_spec (List.length buf) 16) as [Hheader|Hheader].
  - destruct (Nat.leb_spec 16 (List.length buf)) as [Hle|_]; [lia|].
    rewrite andb_false_l, orb_false_r. reflexivity.
  - destruct (Nat.ltb_spec (List.length buf) (16 + 20 * Z.to_nat (be16 buf 8)))
      as [_|Hfull]; [|lia].
    destruct (Nat.leb_spec 16 (List.length buf)) as [_|Hgt]; [|lia].
    destruct (Nat.eqb_spec (List.length buf) 0) as [Hzero|_]; [lia|].
    reflexivity.
Qed.

Lemma parseTableFvar_truncated_witness :
  parseTableFvar Arch64 0 (fvarHeaderBytes x02 x00 x08 ++ wghtAxis) = Err EOF /\
  parseTableFvar Arch64 0 (fvarHeaderBytes x01 x01 x08 ++ [x77; x67]) =
    Err ErrUnexpectedEOF.
Proof.
  split.
  - refine (parseTableFvar_truncated Arch64 0
              (fvarHeaderBytes x02 x00 x08 ++ wghtAxis) _).
    vm_compute. lia.
  - refine (parseTableFvar_truncated Arch64 0
              (fvarHeaderBytes x01 x01 x08 ++ [x77; x67]) _).
    vm_compute. lia.
Defined.

(** X13.  On a buffer that holds the header and the declared axis records,
    with a non-zero instance count at offset 12, [parseTableFvar] fails
    with the invalid-type error of [binary.Read], naming
    [*sfnt.InstanceWithoutPSName] when the instance size at offset 14 is
    four times the size of an [int] and [*sfnt.Instance] otherwise. *)
Theorem parseTableFvar_invalid_type (a : arch) (tag : Tag) (buf : list byte) :
  (16 + 20 * Z.to_nat (be16 buf 8) <= List.length buf)%nat ->
  be16 buf 12 <> 0 ->
  parseTableFvar a tag buf =
    Err (ErrInvalidType
           (if be16 buf 14 =? 4 * Sizeof_BasicKind a
            then "*sfnt.InstanceWithoutPSName" else "*sfnt.Instance")).
Proof.
  intros Hlen Hcount. rewrite parseTableFvar_outcome.
  destruct (Nat.ltb_spec (List.length buf) 16) as [Hshort|_]; [lia|].
  destruct (Nat.ltb_spec (List.length buf) (16 + 20 * Z.to_nat (be16 buf 8)))
    as [Hshort|_]; [lia|].
  destruct (Z.eqb_spec (be16 buf 12) 0) as [Hzero|_]; [contradiction|].
  reflexivity.
Qed.

Lemma parseTableFvar_invalid_type_witness :
  parseTableFvar Arch64 0 (fvarHeaderBytes x00 x01 x20) =
    Err (ErrInvalidType "*sfnt.InstanceWithoutPSName") /\
  parseTableFvar Arch32 0 (fvarHeaderBytes x00 x01 x20) =
    Err (ErrInvalidType "*sfnt.Instance").
Proof.
  split.
  - refine (parseTableFvar_invalid_type Arch64 0 (fvarHeaderBytes x00 x01 x20) _ _).
    + vm_compute. lia.
    + vm_compute. discriminate.
  - refine (parseTableFvar_invalid_type Arch32 0 (fvarHeaderBytes x00 x01 x20) _ _).
    + vm_compute. lia.
    + vm_compute. discriminate.
Defined.

(** ** The coverage bitmap on the wire *)

Lemma byte_high_bits (y k : Z) :
  0 <= y < 256 -> 8 <= k -> Z.testbit y k = false.
Proof.
  intros Hy Hk. destruct (Z.eq_dec y 0) as [->|Hy0]; [apply Z.bits_0|].
  apply Z.bits_above_log2; [lia|].
  apply Z.lt_le_trans with 8; [|exact Hk].
  apply Z.log2_lt_pow2; [lia | change (2 ^ 8) with 256; lia].
Qed.

Lemma testbit_shift_byte (x y k : Z) :
  0 <= y < 256 -> 0 <= k ->
  Z.testbit (x * 256 + y) k =
    if k <? 8 then Z.testbit y k else Z.testbit x (k - 8).
Proof.
  intros Hy Hk. rewrite <- (lor_shiftl_8 x y Hy), Z.lor_spec.
  destruct (Z.ltb_spec k 8) as [Hlow|Hhigh].
  - rewrite Z.shiftl_spec_low by exact Hlow. reflexivity.
  - rewrite Z.shiftl_spec by exact Hk.
    rewrite (byte_high_bits y k Hy Hhigh). apply orb_false_r.
Qed.

(** Bit [k] of a 32-bit big-endian number lies in the byte [3 - k / 8] of
    the four, at position [k mod 8]. *)
Lemma be32_testbit (buf : list byte) (p : nat) (k : Z) :
  0 <= k < 32 ->
  Z.testbit (be32 buf p) k =
    Z.testbit (byteAt buf (3 - Z.to_nat (k / 8) + p)) (k mod 8).
Proof.
  intros Hk. unfold be32.
  rewrite testbit_shift_byte by (apply byteAt_range || lia).
  destruct (Z.ltb_spec k 8) as [H8|H8].
  { replace (k / 8) with 0 by (Z.div_mod_to_equations; lia).
    replace (k mod 8) with k by (Z.div_mod_to_equations; lia). reflexivity. }
  rewrite testbit_shift_byte by (apply byteAt_range || lia).
  destruct (Z.ltb_spec (k - 8) 8) as [H16|H16].
  { replace (k / 8) with 1 by (Z.div_mod_to_equations; lia).
    replace (k mod 8) with (k - 8) by (Z.div_mod_to_equations; lia).
    reflexivity. }
  rewrite testbit_shift_byte by (apply byteAt_range || lia).
  destruct (Z.ltb_spec (k - 8 - 8) 8) as [H24|H24].
  { replace (k / 8) with 2 by (Z.div_mod_to_equations; lia).
    replace (k mod 8) with (k - 8 - 8) by (Z.div_mod_to_equations; lia).
    reflexivity. }
  replace (k / 8) with 3 by (Z.div_mod_to_equations; lia).
  replace (k mod 8) with (k - 8 - 8 - 8) by (Z.div_mod_to_equations; lia).
  reflexivity.
Qed.

(** X14.  On a decoded OS/2 table, [isSupported] answers, for a bit index
    [b] from 0 to 127, with the bit [b mod 8] of one byte of the buffer: the
    four words of the bitmap start at offset 42, and bit [b] lies in word
    [b / 32], in the byte [3 - (b mod 32) / 8] of that word. *)
Theorem isSupported_wire_bit (tag : Tag) (buf : list byte) (t : TableOS2)
    (entry : UnicodeSupport) :
  parseTableOS2 tag buf = Ok t ->
  0 <= BitIndex entry < 128 ->
  isSupported entry (UlUnicodeRange (original t)) =
    Some (Z.testbit
            (byteAt buf (Z.to_nat (45 + 4 * (BitIndex entry / 32)
                                   - (BitIndex entry mod 32) / 8)))
            (BitIndex entry mod 8)).
Proof.
  intros Hparse Hb.
  destruct (parseTableOS2_Ok tag buf t Hparse) as [_ ->].
  rewrite isSupported_bitmapBit
    by (unfold inBitmap; apply andb_true_iff; split;
        [apply Z.leb_le | apply Z.ltb_lt]; lia).
  f_equal. unfold bitmapBit.
  cbn [original UlUnicodeRange TableOs2Original_at].
  assert (Hmod : 0 <= BitIndex entry mod 32 < 32) by (apply Z.mod_pos_bound; lia).
  assert (Hbit : (BitIndex entry mod 32) mod 8 = BitIndex entry mod 8)
    by (Z.div_mod_to_equations; lia).
  assert (Hword : BitIndex entry / 32 = 0 \/ BitIndex entry / 32 = 1 \/
                  BitIndex entry / 32 = 2 \/ BitIndex entry / 32 = 3)
    by (Z.div_mod_to_equations; lia).
  destruct Hword as [Hw|[Hw|[Hw|Hw]]]; rewrite Hw;
    cbn [index4 word0 word1 word2 word3];
    rewrite shiftr_land_1, be32_testbit, Hbit by lia;
    f_equal; f_equal; Z.div_mod_to_equations; lia.
Qed.

Lemma isSupported_wire_bit_witness :
  exists t, parseTableOS2 0 os2Cyrillic = Ok t /\
            isSupported Cyrillic (UlUnicodeRange (original t)) =
              Some (Z.testbit (byteAt os2Cyrillic 44) 1).
Proof.
  eexists. split; [reflexivity|].
  refine (isSupported_wire_bit 0 os2Cyrillic _ Cyrillic _ _).
  - reflexivity.
  - simpl. lia.
Defined.

(** ** Decoder and accessors together *)

(** The low byte of a 16-bit big-endian number holds its bits 0 to 7. *)
Lemma be16_testbit_low (buf : list byte) (p : nat) (k : Z) :
  0 <= k < 8 ->
  Z.testbit (be16 buf p) k = Z.testbit (byteAt buf (1 + p)) k.
Proof.
  intros Hk. unfold be16.
  rewrite testbit_shift_byte by (apply byteAt_range || lia).
  destruct (Z.ltb_spec k 8) as [_|Hge]; [reflexivity | lia].
Qed.

(** X15.  The style label of a decoded OS/2 table is decided by the byte at
    offset 63 alone, the low byte of [FsSelection]: the byte at offset 62
    and every other byte of the buffer have no part in it. *)
Theorem FontStyle_wire_byte (tag : Tag) (buf : list byte) (t : TableOS2) :
  parseTableOS2 tag buf = Ok t ->
  FontStyle t = styleByPriority (byteAt buf 63).
Proof.
  intros Hparse.
  destruct (parseTableOS2_Ok tag buf t Hparse) as [_ ->].
  unfold FontStyle.
  rewrite IsItalic_bit, IsBold_bit, IsUnderscore_bit, IsOutlined_bit,
    IsStrikeout_bit, IsNegative_bit.
  cbn [original FsSelection TableOs2Original_at Nat.add].
  unfold styleByPriority.
  rewrite !be16_testbit_low by lia. reflexivity.
Qed.

Lemma FontStyle_wire_byte_witness :
  exists t, parseTableOS2 0 os2Version4 = Ok t /\ FontStyle t = "normal".
Proof.
  eexists. split; [reflexivity|].
  exact (FontStyle_wire_byte 0 os2Version4 _ eq_refl).
Defined.

Lemma coverage_In (catalog : list UnicodeSupport) (mask : uint32x4) (s : string) :
  In s (coverage catalog mask)
  <-> exists entry r, In entry catalog /\
                      bitmapBit mask (BitIndex entry) = true /\
                      In r (UnicodeRanges entry) /\ s = ("U+" ++ r)%string.
Proof.
  unfold coverage. rewrite in_flat_map. split.
  - intros (entry & Hentry & Hin).
    destruct (bitmapBit mask (BitIndex entry)) eqn:Hbit; [|destruct Hin].
    apply in_map_iff in Hin. destruct Hin as (r & <- & Hr).
    exists entry, r. auto.
  - intros (entry & r & Hentry & Hbit & Hr & ->).
    exists entry. split; [exact Hentry|]. rewrite Hbit.
    apply in_map. exact Hr.
Qed.

(** X16.  Over a catalog whose bit indexes lie in 0..127, [UnicodeRanges]
    returns a list, and a string is in it exactly when it is ["U+"]
    followed by a sub-range of an entry for which [isSupported] answers
    true: no range of an unsupported entry is ever reported. *)
Theorem UnicodeRangesOver_In (catalog : list UnicodeSupport) (t : TableOS2)
    (s : string) :
  forallb inBitmap catalog = true ->
  exists ranges,
    UnicodeRangesOver catalog t = Some ranges /\
    (In s ranges
     <-> exists entry r,
           In entry catalog /\
           isSupported entry (UlUnicodeRange (original t)) = Some true /\
           In r (UnicodeRanges entry) /\ s = ("U+" ++ r)%string).
Proof.
  intros Hall. eexists. split; [apply UnicodeRangesOver_coverage, Hall|].
  rewrite coverage_In. rewrite forallb_forall in Hall.
  split; intros (entry & r & Hentry & Hbit & Hrest); exists entry, r;
    (split; [exact Hentry|]); (split; [|exact Hrest]).
  - rewrite (isSupported_bitmapBit entry _ (Hall entry Hentry)), Hbit.
    reflexivity.
  - rewrite (isSupported_bitmapBit entry _ (Hall entry Hentry)) in Hbit.
    congruence.
Qed.

Lemma UnicodeRangesOver_In_witness :
  exists t ranges,
    parseTableOS2 0 os2Cyrillic = Ok t /\
    UnicodeRangesOver SupportedUnicodeRanges t = Some ranges /\
    In "U+0500-052F" ranges.
Proof.
  eexists.
  destruct (UnicodeRangesOver_In SupportedUnicodeRanges
              {| os2_baseTable := 0;
                 original := fst (TableOs2Original_value (firstn 68 os2Cyrillic));
                 additional := zeroAdditionalFields;
                 os2_bytes := os2Cyrillic |}
              "U+0500-052F" eq_refl) as (ranges & Hranges & Hin).
  exists ranges. split; [reflexivity|]. split; [exact Hranges|].
  apply Hin. exists Cyrillic, "0500-052F".
  repeat split; simpl; auto 20.
Defined.
